(** * birder: the REPL session controller and the header toolbar

    A shallow embedding of the two hand-written parts of the repository:

    - [useReplContext] (the React hook of the REPL: the lifecycle callbacks
      handed to the editor, the settings effect and the imperative actions),
    - [Header] (the toolbar component).

    JavaScript values are embedded as [jsval], plain objects as finite maps
    from property names to values, and the callbacks as computations in a
    small state-and-exception monad over a [World] that also records, in
    order, every call made to a collaborator outside the hook.

    The [await]s of the asynchronous actions are sequenced: the event loop
    runs one handler at a time.  [handleShuffle] is given the tune that
    [getRandomTune] resolves to.  Of the hook, [init] (the construction of
    the editor and the welcome text) and [beforeEval] (the audio-readiness
    promise) are left out; the theme descriptor is a constant table. *)

From Stdlib Require Import QArith.QArith_base.
From stdpp Require Import base strings list gmap fin_maps pretty.

Set Default Proof Using "Type".
Local Open Scope string_scope.
Local Open Scope list_scope.

(** ** JavaScript values *)

Module JS.

(** The primitive values the hook and the toolbar handle.  Numbers are the
  integral ones (timestamps such as [created_at]); the only fractional
  number of the program is the literal [0.5] of [setCps], kept as a [Q]
  in the editor. *)
Inductive jsval : Type :=
| JUndefined
| JNull
| JBool (b : bool)
| JNum (n : Z)
| JStr (s : string).

#[global] Instance jsval_eq_dec : EqDecision jsval.
Proof. solve_decision. Defined.

(** A plain object: own enumerable properties.  [o !! k = None] is an
  absent property, [Some JUndefined] one that is present and holds
  [undefined]. *)
Abbreviation obj := (gmap string jsval).

(** [o.k]: an absent property reads as [undefined]. *)
Definition get (o : obj) (k : string) : jsval := default JUndefined (o !! k).

(** [Object.prototype.hasOwnProperty.call(o, k)] *)
Definition hasOwnProperty (o : obj) (k : string) : bool := bool_decide (is_Some (o !! k)).

(** ToBoolean *)
Definition truthy (v : jsval) : bool :=
match v with
| JUndefined | JNull => false
| JBool b => b
| JNum n => negb (Z.eqb n 0)
| JStr s => negb (String.eqb s "")
end.

(** [!v] *)
Definition js_not (v : jsval) : jsval := JBool (negb (truthy v)).

(** [a && b] and [a || b] return one of their operands. *)
Definition js_and (a b : jsval) : jsval := if truthy a then b else a.
Definition js_or (a b : jsval) : jsval := if truthy a then a else b.

(** [a === b] and [a !== b]; on these primitives strict equality is
  equality of the values. *)
Definition strict_eq (a b : jsval) : bool := bool_decide (a = b).
Definition strict_ne (a b : jsval) : bool := negb (strict_eq a b).

End JS.

Import JS.

(** ** The world of the hook *)

(** The editor instance ([new StrudelMirror(...)]) as far as the hook
    drives it: the text it holds and the clock rate of its [repl]. *)
Record StrudelMirror : Type := {
  editorCode : jsval;
  replCps : Q;
}.

(** What [userPattern.duplicate] and [userPattern.update] return:
    an object with the fields [id] and [data]. *)
Record Pattern : Type := {
  pat_id : jsval;
  pat_data : obj;
}.

(** Calls to collaborators outside the hook, as they are observed. *)
Inductive effect : Type :=
  | PostMessage (code : string)            (* window.parent.postMessage(code) *)
  | SetLatestCode (code : string)
  | SetLocationHash (hash : string)        (* window.location.hash = hash *)
  | SetDocumentTitle (title : string)      (* document.title = title *)
  | GetViewingPatternData
  | SetVersionDefaultsFrom (code : string)
  | Duplicate (data : obj)                 (* userPattern.duplicate(data) *)
  | IsValidID (id : jsval)                 (* userPattern.isValidID(id) *)
  | CreatePatternID
  | Update (id : jsval) (data : obj)       (* userPattern.update(id, data) *)
  | SetViewingPatternData (data : obj)
  | SetActivePattern (id : jsval)
  | ClearHydra
  | ResetVoicings
  | ResetGlobalEffects
  | ClearCanvas
  | ResetLoadedSounds
  | SetCps (cps : Q)                       (* editor.repl.setCps(cps) *)
  | Prebake
  | UpdateSettings (s : obj)               (* editor.updateSettings(s) *)
  | SetCode (code : jsval)                 (* editor.setCode(code) *)
  | Evaluate                               (* editor.evaluate() *)
  | Toggle                                 (* editor.toggle() *)
  | ShareCode (code : jsval).

(** The hook runs in a browser: the module-level branch
    [typeof window !== 'undefined'] has been taken, so [modulesLoading],
    [presets], [drawContext] and [clearCanvas] are set, and the promises
    of the collaborators resolve.  [St] is the state of the pattern store. *)
Record World (St : Type) : Type := mkWorld {
  parentFrame : bool;             (* window.parent is neither null nor undefined *)
  modulesLoading : list string;   (* packageName of each module modulesLoading resolves to *)
  editorRef : option StrudelMirror;   (* editorRef.current *)
  replState : obj;                (* the state of useState *)
  viewingPatternData : obj;
  activePattern : jsval;
  userPatterns : St;
  log : list effect;              (* oldest first *)
}.
Arguments mkWorld {St}.
Arguments parentFrame {St}.
Arguments modulesLoading {St}.
Arguments editorRef {St}.
Arguments replState {St}.
Arguments viewingPatternData {St}.
Arguments activePattern {St}.
Arguments userPatterns {St}.
Arguments log {St}.

(** The interfaces consumed by the hook; their code is not part of this
    repository slice, so they are operations of a class. *)
Class Collaborators (St : Type) : Type := {
  code2hash : string → string;
  (** [getMetadata(code).title]; [None] is [undefined]. *)
  metaTitle : string → option string;
  (** [Object.keys(defaultSettings)], in enumeration order. *)
  defaultSettingsKeys : list string;
  (** [userPattern.collection] *)
  userCollection : jsval;
  isValidID : jsval → bool;
  createPatternID : St → string * St;
  update : jsval → obj → St → Pattern * St;
  duplicate : obj → St → Pattern * St;
}.

(** ** The monad of the callbacks *)

(** A thrown exception; the only one the hook raises itself is the
    [TypeError] of a property read on [undefined]. *)
Inductive exn : Type :=
  | TypeError (msg : string).

Inductive outcome (A : Type) : Type :=
  | Ret (a : A)
  | Throw (e : exn).
Arguments Ret {A}.
Arguments Throw {A}.

Section Monad.
Context {St : Type}.

(** A computation may change the world before it throws: what was done
    stays done. *)
Definition M (A : Type) : Type := World St → outcome A * World St.

Definition ret {A} (a : A) : M A := fun w => (Ret a, w).

Definition bind {A B} (m : M A) (k : A → M B) : M B :=
  fun w =>
    match m w with
    | (Ret a, w') => k a w'
    | (Throw e, w') => (Throw e, w')
    end.

Definition throw {A} (e : exn) : M A := fun w => (Throw e, w).

Definition gets {A} (f : World St → A) : M A := fun w => (Ret (f w), w).

Definition modify (f : World St → World St) : M unit := fun w => (Ret tt, f w).

(** The world a computation leaves, and its result. *)
Definition exec {A} (m : M A) (w : World St) : World St := snd (m w).
Definition result {A} (m : M A) (w : World St) : outcome A := fst (m w).

Definition set_log (l : list effect) (w : World St) : World St :=
  mkWorld (parentFrame w) (modulesLoading w) (editorRef w) (replState w)
          (viewingPatternData w) (activePattern w) (userPatterns w) l.

Definition set_editorRef (e : option StrudelMirror) (w : World St) : World St :=
  mkWorld (parentFrame w) (modulesLoading w) e (replState w)
          (viewingPatternData w) (activePattern w) (userPatterns w) (log w).

Definition set_replState (s : obj) (w : World St) : World St :=
  mkWorld (parentFrame w) (modulesLoading w) (editorRef w) s
          (viewingPatternData w) (activePattern w) (userPatterns w) (log w).

Definition set_viewingPatternData (d : obj) (w : World St) : World St :=
  mkWorld (parentFrame w) (modulesLoading w) (editorRef w) (replState w)
          d (activePattern w) (userPatterns w) (log w).

Definition set_activePattern (id : jsval) (w : World St) : World St :=
  mkWorld (parentFrame w) (modulesLoading w) (editorRef w) (replState w)
          (viewingPatternData w) id (userPatterns w) (log w).

Definition set_userPatterns (s : St) (w : World St) : World St :=
  mkWorld (parentFrame w) (modulesLoading w) (editorRef w) (replState w)
          (viewingPatternData w) (activePattern w) s (log w).

(** Record a call to a collaborator. *)
Definition emit (e : effect) : M unit := modify (fun w => set_log (log w ++ [e]) w).
End Monad.

Declare Scope repl_scope.
Notation "x ← m ; k" := (bind m (fun x => k))
  (at level 20, m at level 100, k at level 200, only parsing) : repl_scope.
Notation "m ;; k" := (bind m (fun _ => k))
  (at level 100, k at level 200, right associativity) : repl_scope.
Delimit Scope repl_scope with repl.
Local Open Scope repl_scope.

(** ** useReplContext *)

Section Repl.
Context {St : Type} `{!Collaborators St}.

(** *** Collaborator calls *)

(** [window.parent?.postMessage(code)] *)
Definition postMessage (code : string) : M (St:=St) unit :=
  parent ← gets parentFrame;
  if parent then emit (PostMessage code) else ret tt.

Definition setLatestCode (code : string) : M (St:=St) unit := emit (SetLatestCode code).

Definition setLocationHash (hash : string) : M (St:=St) unit := emit (SetLocationHash hash).

Definition setVersionDefaultsFrom (code : string) : M (St:=St) unit :=
  emit (SetVersionDefaultsFrom code).

Definition getViewingPatternData : M (St:=St) obj :=
  emit GetViewingPatternData ;; gets viewingPatternData.

Definition setViewingPatternData (data : obj) : M (St:=St) unit :=
  emit (SetViewingPatternData data) ;; modify (set_viewingPatternData data).

Definition setActivePattern (id : jsval) : M (St:=St) unit :=
  emit (SetActivePattern id) ;; modify (set_activePattern id).

Definition userPattern_isValidID (id : jsval) : M (St:=St) bool :=
  emit (IsValidID id) ;; ret (isValidID id).

Definition userPattern_createPatternID : M (St:=St) string :=
  emit CreatePatternID ;;
  fun w => let '(id, s) := createPatternID (userPatterns w) in (Ret id, set_userPatterns s w).

Definition userPattern_update (id : jsval) (data : obj) : M (St:=St) Pattern :=
  emit (Update id data) ;;
  fun w => let '(p, s) := update id data (userPatterns w) in (Ret p, set_userPatterns s w).

Definition userPattern_duplicate (data : obj) : M (St:=St) Pattern :=
  emit (Duplicate data) ;;
  fun w => let '(p, s) := duplicate data (userPatterns w) in (Ret p, set_userPatterns s w).

Definition clearHydra : M (St:=St) unit := emit ClearHydra.

(** *** setDocumentTitle *)

(** [(meta.title ? `${meta.title} - ` : '') + 'Strudel REPL'] *)
Definition documentTitle (code : string) : string :=
  (match metaTitle code with
   | Some title => if truthy (JStr title) then title +:+ " - " else ""
   | None => ""
   end) +:+ "Strudel REPL".

Definition setDocumentTitle (code : string) : M (St:=St) unit :=
  emit (SetDocumentTitle (documentTitle code)).

(** *** The lifecycle callbacks given to the editor *)

(** [onUpdateState: (state) => { setReplState({ ...state }) }]:
    the new state is a fresh object with the own properties of [state]. *)
Definition onUpdateState (state : obj) : M (St:=St) unit :=
  modify (set_replState state).

(** [onToggle: (playing) => { if (!playing) { clearHydra() } }] *)
Definition onToggle (playing : jsval) : M (St:=St) unit :=
  if truthy (js_not playing) then clearHydra else ret tt.

(** [afterEval: (all) => { const { code } = all; ... }], given the
    evaluated text [all.code]. *)
Definition afterEval (code : string) : M (St:=St) unit :=
  postMessage code ;;
  setLatestCode code ;;
  setLocationHash ("#" +:+ code2hash code) ;;
  setDocumentTitle code ;;
  viewingPatternData ← getViewingPatternData;
  setVersionDefaultsFrom code ;;
  let data := <["code" := JStr code]> viewingPatternData in
  let id := get data "id" in
  let isExamplePattern := strict_ne (get viewingPatternData "collection") userCollection in
  id ← (if isExamplePattern then
          let codeHasChanged := strict_ne (JStr code) (get viewingPatternData "code") in
          if codeHasChanged then
            newPattern ← userPattern_duplicate data;
            setViewingPatternData (pat_data newPattern) ;;
            ret (pat_id newPattern)
          else ret id
        else
          valid ← userPattern_isValidID id;
          id ← (if valid then ret id
                else fresh ← userPattern_createPatternID; ret (JStr fresh));
          updated ← userPattern_update id data;
          setViewingPatternData (pat_data updated) ;;
          ret id);
  setActivePattern id.

(** *** State of the hook *)

(** [useState({})] *)
Definition initialReplState : obj := ∅.

(** *** The settings effect *)

(** The object built by the [forEach] over [Object.keys(defaultSettings)]. *)
Definition editorSettings (_settings : obj) : obj :=
  foldl (fun editorSettings key =>
           if hasOwnProperty _settings key
           then <[key := get _settings key]> editorSettings
           else editorSettings)
        ∅ defaultSettingsKeys.

(** The body of [useEffect(..., [_settings])]:
    [editorRef.current?.updateSettings(editorSettings)]. *)
Definition settingsEffect (_settings : obj) : M (St:=St) unit :=
  editor ← gets editorRef;
  match editor with
  | Some _ => emit (UpdateSettings (editorSettings _settings))
  | None => ret tt
  end.

(** *** The editor, through [editorRef.current] *)

(** [editorRef.current.m(...)] throws when no editor is attached. *)
Definition withEditor {A} (k : StrudelMirror → M (St:=St) A) : M (St:=St) A :=
  editor ← gets editorRef;
  match editor with
  | Some e => k e
  | None => throw (TypeError "Cannot read properties of undefined")
  end.

Definition editor_setCps (cps : Q) : M (St:=St) unit :=
  withEditor (fun e =>
    emit (SetCps cps) ;;
    modify (set_editorRef (Some {| editorCode := editorCode e; replCps := cps |}))).

Definition editor_setCode (code : jsval) : M (St:=St) unit :=
  withEditor (fun e =>
    emit (SetCode code) ;;
    modify (set_editorRef (Some {| editorCode := code; replCps := replCps e |}))).

Definition editor_evaluate : M (St:=St) unit := withEditor (fun _ => emit Evaluate).

(** *** The imperative actions *)

(** [modules.find((m) => m.packageName === name)], once [modulesLoading]
    has resolved; in a browser [modulesLoading] is set, so the guard
    [if (!modulesLoading) return] does not fire. *)
Definition getModule (name : string) : M (St:=St) (option string) :=
  modules ← gets modulesLoading;
  ret (List.find (fun m => String.eqb m name) modules).

(** [handleTogglePlay]: [editorRef.current?.toggle()] *)
Definition handleTogglePlay : M (St:=St) unit :=
  editor ← gets editorRef;
  match editor with
  | Some _ => emit Toggle
  | None => ret tt
  end.

Definition resetEditor : M (St:=St) unit :=
  tonal ← getModule "@strudel/tonal";
  (match tonal with
   | Some _ => emit ResetVoicings
   | None => ret tt
   end) ;;
  emit ResetGlobalEffects ;;
  emit ClearCanvas ;;
  clearHydra ;;
  emit ResetLoadedSounds ;;
  editor_setCps (Qmake 1 2) ;;
  emit Prebake.

Definition handleEvaluate : M (St:=St) unit := editor_evaluate.

(** [handleUpdate(patternData, reset = false)] *)
Definition handleUpdate (patternData : obj) (reset : jsval) : M (St:=St) unit :=
  setViewingPatternData patternData ;;
  editor_setCode (get patternData "code") ;;
  if truthy reset then resetEditor ;; handleEvaluate else ret tt.

(** [handleShare]: [shareCode(replState.code)] *)
Definition handleShare : M (St:=St) unit :=
  replState ← gets replState;
  emit (ShareCode (get replState "code")).
End Repl.

(** *** The context handed to the views *)

(** [const { started, isDirty, error, activeCode, pending } = replState] *)
Record ReplContext : Type := {
  started : jsval;
  pending : jsval;
  isDirty : jsval;
  activeCode : jsval;
  error : jsval;
}.

Definition context (replState : obj) : ReplContext :=
  {| started := get replState "started";
     pending := get replState "pending";
     isDirty := get replState "isDirty";
     activeCode := get replState "activeCode";
     error := get replState "error" |}.

(** ** Header.jsx *)

Module Toolbar.

(** ToString, for a class that is not a string. *)
Definition toString (v : jsval) : string :=
  match v with
  | JUndefined => "undefined"
  | JNull => "null"
  | JBool true => "true"
  | JBool false => "false"
  | JNum n => pretty n
  | JStr s => s
  end.

(** Modelled from the spec: [cx] of [@src/cx.mjs], the class-name helper
    of the toolbar, is not part of the slice.  The toolbar has "no logic
    of its own beyond conditional styling": an argument contributes its
    classes exactly when it is truthy.  The [className] is the kept
    arguments, in order (in the DOM, joined by spaces). *)
Definition cx (classes : list jsval) : list string :=
  toString <$> List.filter truthy classes.

(** [useSettings()] *)
Record Settings : Type := {
  isZen : jsval;
  isButtonRowHidden : jsval;
  isCSSAnimationDisabled : jsval;
  fontFamily : jsval;
}.

Inductive Icon : Type := StopCircleIcon | PlayCircleIcon.

(** The child of the play/stop button. *)
Inductive PlayContent : Type :=
  | Loading                                        (* <>loading...</> *)
  | IconLabel (icon : Icon) (label : option string).

Record ButtonRow : Type := {
  play_title : string;
  play_className : list string;
  play_content : PlayContent;
  update_title : string;
  update_className : list string;
  update_label : option string;
}.

Record View : Type := {
  header_className : list string;
  h1_className : list string;
  logo_className : list string;     (* the div around the spiral glyph *)
  brand : option string;
  buttonRow : option ButtonRow;
}.

(** [c ? a : b] *)
Definition cond {A} (c : jsval) (a b : A) : A := if truthy c then a else b.

(** [c && <element/>]: the element is rendered when [c] is truthy. *)
Definition when {A} (c : jsval) (a : A) : option A := if truthy c then Some a else None.

(** [Header({ context, embedded = false })], in a window that is
    ([framed]) or is not inside another one:
    [framed] is [window.location !== window.parent.location]. *)
Definition Header (context : ReplContext) (embedded : jsval) (framed : bool)
    (settings : Settings) : View :=
  let started := started context in
  let pending := pending context in
  let isDirty := isDirty context in
  let activeCode := activeCode context in
  let isEmbedded := js_or embedded (JBool framed) in
  let isZen := isZen settings in
  let isButtonRowHidden := isButtonRowHidden settings in
  let isCSSAnimationDisabled := isCSSAnimationDisabled settings in
  {| header_className :=
       cx [ JStr "flex-none text-black z-[100] text-lg select-none h-20 md:h-14";
            js_and (js_and (js_not isZen) (js_not isEmbedded)) (JStr "bg-lineHighlight");
            cond isZen (JStr "h-12 w-8 fixed top-0 left-0")
                       (JStr "sticky top-0 w-full py-1 justify-between");
            cond isEmbedded (JStr "flex") (JStr "md:flex") ];
     h1_className :=
       cx [ cond isEmbedded (JStr "text-l cursor-pointer") (JStr "text-xl");
            JStr "text-foreground font-bold flex space-x-2 items-center" ];
     logo_className :=
       cx [ JStr "mt-[1px]";
            js_and (js_and started (js_not isCSSAnimationDisabled)) (JStr "animate-spin");
            JStr "cursor-pointer text-blue-500";
            js_and isZen (JStr "fixed top-2 right-4") ];
     brand := when (js_not isZen) "birder";
     buttonRow :=
       when (js_and (js_not isZen) (js_not isButtonRowHidden))
         {| play_title := cond started "stop" "play";
            play_className :=
              cx [ cond (js_not isEmbedded) (JStr "p-2") (JStr "px-2");
                   JStr "hover:opacity-50";
                   js_and (js_and (js_not started) (js_not isCSSAnimationDisabled))
                          (JStr "animate-pulse") ];
            play_content :=
              cond (js_not pending)
                (IconLabel (cond started StopCircleIcon PlayCircleIcon)
                           (when (js_not isEmbedded) (cond started "stop" "play")))
                Loading;
            update_title := "update";
            update_className :=
              cx [ JStr "flex items-center space-x-1";
                   cond (js_not isEmbedded) (JStr "p-2") (JStr "px-2");
                   cond (js_or (js_not isDirty) (js_not activeCode))
                        (JStr "opacity-50") (JStr "hover:opacity-50") ];
            update_label := when (js_not isEmbedded) "update" |} |}.

(** The classes of an element ([element.classList]): the words of its
    [className]. *)
Definition classList (className : list string) : list string :=
  flat_map String.words className.

(** What an element shows, read off its classes. *)
Definition has_class (c : string) (className : list string) : bool :=
  existsb (String.eqb c) (classList className).
Definition spins : list string → bool := has_class "animate-spin".
Definition pulses : list string → bool := has_class "animate-pulse".
Definition dimmed : list string → bool := has_class "opacity-50".

(** The settings of a new installation: nothing hidden or disabled. *)
Definition plain : Settings :=
  {| isZen := JBool false;
     isButtonRowHidden := JBool false;
     isCSSAnimationDisabled := JBool false;
     fontFamily := JStr "monospace" |}.

(** A session that is playing, with nothing left to evaluate. *)
Definition playing : ReplContext :=
  {| started := JBool true;
     pending := JBool false;
     isDirty := JBool false;
     activeCode := JStr "a";
     error := JUndefined |}.

End Toolbar.

(** ** The header, with or without a window *)

(** [typeof window !== 'undefined' &&
     (embedded || window.location !== window.parent.location)]:
    [window] is [None] when there is no window (a render outside of a
    browser), and [Some framed] in a window, [framed] telling whether
    [window.location !== window.parent.location]. *)
Definition isEmbedded (window : option bool) (embedded : jsval) : jsval :=
  match window with
  | None => JBool false
  | Some framed => js_and (JBool true) (js_or embedded (JBool framed))
  end.

(** [Header({ context, embedded = false })] wherever it is rendered.  The
    component uses [embedded] and the window only through [isEmbedded];
    without a window that is [false], as it is for [embedded = false] in a
    window of its own. *)
Definition HeaderOn (window : option bool) (context : ReplContext) (embedded : jsval)
    (settings : Toolbar.Settings) : Toolbar.View :=
  match window with
  | None => Toolbar.Header context (JBool false) false settings
  | Some framed => Toolbar.Header context embedded framed settings
  end.

(** Whether the play/stop control is rendered and pulses. *)
Definition play_pulses (view : Toolbar.View) : bool :=
  match Toolbar.buttonRow view with
  | Some row => Toolbar.pulses (Toolbar.play_className row)
  | None => false
  end.

(** ** The click handlers of the header *)

Module Clicks.

(** What a click handler of the header does. *)
Inductive reaction : Type :=
  | SetIsZen (isZen : jsval)      (* setIsZen(!isZen) *)
  | OpenWithoutEmbed              (* window.open(window.location.href.replace('embed', '')) *)
  | CallHandleTogglePlay
  | CallHandleEvaluate.

(** Where the click lands: on the logo (the div inside the heading), on
    the rest of the heading, or on one of the two buttons. *)
Inductive target : Type := Logo | Heading | PlayButton | UpdateButton.

(** [onClick] of the [h1]: [if (isEmbedded) window.open(...)] *)
Definition h1_onClick (isEmbedded : jsval) : list reaction :=
  if truthy isEmbedded then [OpenWithoutEmbed] else [].

(** [onClick] of the logo: [if (!isEmbedded) { setIsZen(!isZen) }] *)
Definition logo_onClick (isEmbedded isZen : jsval) : list reaction :=
  if truthy (js_not isEmbedded) then [SetIsZen (js_not isZen)] else [].

(** The handlers a click runs, innermost first: a click on the logo also
    reaches the heading around it, and the buttons are there only when the
    button row is rendered. *)
Definition onClick (t : target) (embedded : jsval) (framed : bool)
    (settings : Toolbar.Settings) : list reaction :=
  let isEmbedded := js_or embedded (JBool framed) in
  let isZen := Toolbar.isZen settings in
  let rendered :=
    truthy (js_and (js_not isZen) (js_not (Toolbar.isButtonRowHidden settings))) in
  match t with
  | Logo => logo_onClick isEmbedded isZen ++ h1_onClick isEmbedded
  | Heading => h1_onClick isEmbedded
  | PlayButton => if rendered then [CallHandleTogglePlay] else []
  | UpdateButton => if rendered then [CallHandleEvaluate] else []
  end.

End Clicks.

(** ** An in-memory pattern store *)

Module MemoryStore.

(** Modelled from the spec: the document store ([userPattern] and
    [createPatternID] of [user_pattern_utils.mjs]) is not part of the
    slice.  The spec lists its interface, "duplicate(data),
    update(id, data), isValidID(id), collection identifier", over pattern
    documents "{id, code, collection, metadata}".  This store keeps the
    documents in a map by id and numbers the ids it creates; it is used to
    run the hook on concrete inputs. *)
Record store : Type := {
  patterns : gmap string obj;
  next : nat;
}.

Definition empty : store := {| patterns := ∅; next := 0 |}.

Definition store_isValidID (id : jsval) : bool :=
  match id with
  | JStr s => negb (String.eqb s "")
  | _ => false
  end.

Definition store_createPatternID (st : store) : string * store :=
  ("pattern" +:+ pretty (next st), {| patterns := patterns st; next := S (next st) |}).

Definition store_update (id : jsval) (data : obj) (st : store) : Pattern * store :=
  let data := <["collection" := JStr "user"]> (<["id" := id]> data) in
  ({| pat_id := id; pat_data := data |},
   {| patterns := <[Toolbar.toString id := data]> (patterns st); next := next st |}).

Definition store_duplicate (data : obj) (st : store) : Pattern * store :=
  let '(id, st) := store_createPatternID st in
  store_update (JStr id) data st.

#[global] Instance collaborators : Collaborators store := {|
  code2hash := fun code => code;
  metaTitle := fun _ => None;
  defaultSettingsKeys := ["keybindings"; "theme"; "fontFamily"; "fontSize"];
  userCollection := JStr "user";
  isValidID := store_isValidID;
  createPatternID := store_createPatternID;
  update := store_update;
  duplicate := store_duplicate;
|}.

(** A browser window with a parent frame, the tonal module loaded, an
    editor attached, nothing evaluated yet, viewing [viewing]. *)
Definition world (viewing : obj) : World store :=
  {| parentFrame := true;
     modulesLoading := ["@strudel/core"; "@strudel/tonal"];
     editorRef := Some {| editorCode := JStr ""; replCps := Qmake 1 2 |};
     replState := initialReplState;
     viewingPatternData := viewing;
     activePattern := JUndefined;
     userPatterns := empty;
     log := [] |}.

(** The two documents of the scenarios of the spec. *)
Definition ex1 : obj :=
  {[ "id" := JStr "ex1"; "collection" := JStr "examples"; "code" := JStr "a" ]}.
Definition u1 : obj :=
  {[ "id" := JStr "u1"; "collection" := JStr "user"; "code" := JStr "a" ]}.

(** A user document that has no valid id yet. *)
Definition draft : obj :=
  {[ "id" := JStr ""; "collection" := JStr "user"; "code" := JStr "a" ]}.

(** A session state with an error, and a later one without the field. *)
Definition failed : obj := {[ "started" := JBool true; "error" := JStr "boom" ]}.
Definition recovered : obj := {[ "started" := JBool true ]}.

(** A session whose editor text has changed since the last evaluation. *)
Definition edited : obj :=
  {[ "started" := JBool true; "isDirty" := JBool true;
     "activeCode" := JStr "a"; "code" := JStr "b" ]}.

(** Observed settings with a key the editor does not know. *)
Definition observed : obj :=
  {[ "theme" := JStr "strudelTheme"; "fontSize" := JNum 18;
     "isZen" := JBool false ]}.

(** The window before [init] has attached an editor. *)
Definition unmounted (viewing : obj) : World store :=
  set_editorRef None (world viewing).

End MemoryStore.

(** ** Output backend and clock *)

(** The two output backends and the two clocks [useReplContext] chooses
    between. *)
Inductive Output : Type := webaudioOutput | superdirtOutput.
Inductive Clock : Type := getAudioContextCurrentTime | getPerformanceTimeSeconds.

Section Backend.
(** [audioEngineTargets.osc], a constant of [settings.mjs]. *)
Variable osc : jsval.

(** [audioEngineTarget !== audioEngineTargets.osc] *)
Definition shouldUseWebaudio (audioEngineTarget : jsval) : bool :=
  strict_ne audioEngineTarget osc.

Definition defaultOutput (audioEngineTarget : jsval) : Output :=
  if shouldUseWebaudio audioEngineTarget then webaudioOutput else superdirtOutput.

Definition getTime (audioEngineTarget : jsval) : Clock :=
  if shouldUseWebaudio audioEngineTarget
  then getAudioContextCurrentTime
  else getPerformanceTimeSeconds.
End Backend.

(** ** handleShuffle *)

(** [handleShuffle] also calls the logger and the [repl] of the editor; its
    journal holds these calls among the ones recorded in the log. *)
Inductive entry : Type :=
  | Call (e : effect)
  | Logger (message : string)              (* logger(message) *)
  | ReplEvaluate (code : jsval).           (* editor.repl.evaluate(code) *)

Record Session (St : Type) : Type := mkSession {
  session_world : World St;
  journal : list entry;                    (* oldest first *)
}.
Arguments mkSession {St}.
Arguments session_world {St}.
Arguments journal {St}.

Section Shuffle.
Context {St : Type} `{!Collaborators St}.

Definition X (A : Type) : Type := Session St → outcome A * Session St.

Definition bindX {A B} (m : X A) (k : A → X B) : X B :=
  fun s =>
    match m s with
    | (Ret a, s') => k a s'
    | (Throw e, s') => (Throw e, s')
    end.

(** Run a computation of the hook in the session: the calls it records
    enter the journal. *)
Definition lift {A} (m : M (St:=St) A) : X A :=
  fun s =>
    let '(r, w) := m (session_world s) in
    (r, mkSession w (journal s ++ (Call <$> drop (length (log (session_world s))) (log w)))).

Definition note (e : entry) : X unit :=
  fun s => (Ret tt, mkSession (session_world s) (journal s ++ [e])).

(** [logger(message)] *)
Definition logger (message : string) : X unit := note (Logger message).

(** [editorRef.current.repl.evaluate(code)] *)
Definition editor_repl_evaluate (code : jsval) : X unit :=
  fun s =>
    match editorRef (session_world s) with
    | Some _ => note (ReplEvaluate code) s
    | None => (Throw (TypeError "Cannot read properties of undefined"), s)
    end.

(** The double-quote character, for the message of the logger. *)
Definition dquote : string := String (Ascii.ascii_of_nat 34) EmptyString.

(** The message of the logger: the tune is named by its id, between
    double quotes. *)
Definition loading (patternData : obj) : string :=
  "[repl] ✨ loading random tune " +:+ dquote
    +:+ Toolbar.toString (get patternData "id") +:+ dquote.

(** [handleShuffle], given the tune [getRandomTune()] resolves to. *)
Definition handleShuffle (patternData : obj) : X unit :=
  let code := get patternData "code" in
  bindX (logger (loading patternData)) (fun _ =>
  bindX (lift (setActivePattern (get patternData "id"))) (fun _ =>
  bindX (lift (setViewingPatternData patternData)) (fun _ =>
  bindX (lift resetEditor) (fun _ =>
  bindX (lift (editor_setCode code)) (fun _ =>
  editor_repl_evaluate code))))).
End Shuffle.

(** ** Observations on a run *)

Section Observations.
Context {St : Type} `{!Collaborators St}.

(** The effects a computation adds to the log of [w]. *)
Definition trace {A} (m : M (St:=St) A) (w : World St) : list effect :=
  drop (length (log w)) (log (exec m w)).

(** The broadcast to the parent frame, when there is one. *)
Definition broadcast (w : World St) (code : string) : list effect :=
  if parentFrame w then [PostMessage code] else [].

(** The effects of [afterEval] that come before it looks at the viewed
    document. *)
Definition publish (w : World St) (code : string) : list effect :=
  broadcast w code ++
  [ SetLatestCode code;
    SetLocationHash ("#" +:+ code2hash code);
    SetDocumentTitle (documentTitle code);
    GetViewingPatternData;
    SetVersionDefaultsFrom code ].

(** Calls to the pattern store and to the viewed-document pointer. *)
Definition is_document_effect (e : effect) : bool :=
  match e with
  | Duplicate _ | IsValidID _ | CreatePatternID | Update _ _
  | SetViewingPatternData _ => true
  | _ => false
  end.

(** Calls that make a document or an id. *)
Definition creates_document (e : effect) : bool :=
  match e with
  | Duplicate _ | CreatePatternID => true
  | _ => false
  end.

(** The optional first step of [resetEditor]: [resetVoicings] of the
    tonal module, when it is among the loaded ones. *)
Definition voicings (w : World St) : list effect :=
  match List.find (fun m => String.eqb m "@strudel/tonal") (modulesLoading w) with
  | Some _ => [ResetVoicings]
  | None => []
  end.

(** The six resets of [resetEditor]. *)
Definition resets : list effect :=
  [ ResetGlobalEffects; ClearCanvas; ClearHydra; ResetLoadedSounds;
    SetCps (Qmake 1 2); Prebake ].

(** A sequence of notifications of the editor to [onToggle]. *)
Fixpoint onToggles (playings : list jsval) : M (St:=St) unit :=
  match playings with
  | [] => ret tt
  | playing :: rest => onToggle playing ;; onToggles rest
  end.

(** What can happen to the hook: a notification of the editor, a change
    of the observed settings, or an action invoked by a view. *)
Inductive event : Type :=
  | OnUpdateState (state : obj)
  | OnToggle (playing : jsval)
  | AfterEval (code : string)
  | SettingsChange (_settings : obj)
  | HandleTogglePlay
  | HandleEvaluate
  | HandleUpdate (patternData : obj) (reset : jsval)
  | HandleShare.

Definition dispatch (ev : event) : M (St:=St) unit :=
  match ev with
  | OnUpdateState state => onUpdateState state
  | OnToggle playing => onToggle playing
  | AfterEval code => afterEval code
  | SettingsChange _settings => settingsEffect _settings
  | HandleTogglePlay => handleTogglePlay
  | HandleEvaluate => handleEvaluate
  | HandleUpdate patternData reset => handleUpdate patternData reset
  | HandleShare => handleShare
  end.

(** The events are handled one after the other on the event loop; a
    handler that throws does not keep the later ones from running. *)
Definition dispatch_all (evs : list event) (w : World St) : World St :=
  foldl (fun w ev => exec (dispatch ev) w) w evs.

(** The states notified to [onUpdateState] among the events, in order. *)
Definition updates (evs : list event) : list obj :=
  omap (fun ev => match ev with OnUpdateState state => Some state | _ => None end) evs.
End Observations.

(** ** Everything that can happen to the hook *)

Section Occurrences.
Context {St : Type} `{!Collaborators St}.

(** An event, or the shuffle action with the tune it got. *)
Inductive occurrence : Type :=
  | Event (ev : event)
  | Shuffle (patternData : obj).

Definition occur (o : occurrence) : X (St:=St) unit :=
  match o with
  | Event ev => lift (dispatch ev)
  | Shuffle patternData => handleShuffle patternData
  end.

(** As for [dispatch_all]: one handler after the other, whether or not the
    one before has thrown. *)
Definition occur_all (os : list occurrence) (s : Session St) : Session St :=
  foldl (fun s o => (occur o s).2) s os.

(** The occurrences that write the pattern store, the active pattern and
    the viewed document. *)
Definition writes_store (o : occurrence) : bool :=
  match o with
  | Event (AfterEval _) => true
  | _ => false
  end.

Definition writes_active (o : occurrence) : bool :=
  match o with
  | Event (AfterEval _) | Shuffle _ => true
  | _ => false
  end.

Definition writes_viewed (o : occurrence) : bool :=
  match o with
  | Event (AfterEval _) | Event (HandleUpdate _ _) | Shuffle _ => true
  | _ => false
  end.
End Occurrences.

(** * Properties *)

Section JSFacts.
Lemma strict_ne_true a b : strict_ne a b = true ↔ a ≠ b.
Proof.
  unfold strict_ne, strict_eq. rewrite negb_true_iff, bool_decide_eq_false. done.
Qed.

Lemma strict_ne_false a b : strict_ne a b = false ↔ a = b.
Proof.
  unfold strict_ne, strict_eq. rewrite negb_false_iff, bool_decide_eq_true. done.
Qed.

Lemma truthy_not v : truthy (js_not v) = negb (truthy v).
Proof. done. Qed.

End JSFacts.

(** ** The monad *)

Section MonadFacts.
Context {St : Type}.
Implicit Types w : World St.

Lemma set_log_log w : set_log (log w) w = w.
Proof. by destruct w. Qed.

Lemma exec_bind {A B} (m : M (St:=St) A) (k : A → M B) w a :
  result m w = Ret a → exec (bind m k) w = exec (k a) (exec m w).
Proof.
  unfold result, exec, bind. destruct (m w) as [[a'|e] w']; simpl; [|done].
  by intros [= ->].
Qed.

End MonadFacts.

(** Unfold the collaborator calls and the monad, and flatten the log. *)
Ltac step :=
  cbv [postMessage setLatestCode setLocationHash setVersionDefaultsFrom
       getViewingPatternData setViewingPatternData setActivePattern
       userPattern_isValidID userPattern_createPatternID userPattern_update
       userPattern_duplicate clearHydra setDocumentTitle withEditor
       bind ret gets modify emit throw exec result
       set_log set_editorRef set_replState set_viewingPatternData
       set_activePattern set_userPatterns]; simpl.

Ltac flatten_log := rewrite <- ?app_assoc; simpl.

(** ** afterEval, path by path *)

Section AfterEvalFacts.
Context {St : Type} `{!Collaborators St}.
Implicit Types (w : World St) (C : string).

(** An example whose code has changed: fork. *)
Lemma afterEval_fork w C :
  let data := <["code" := JStr C]> (viewingPatternData w) in
  let new := duplicate data (userPatterns w) in
  get (viewingPatternData w) "collection" ≠ userCollection →
  JStr C ≠ get (viewingPatternData w) "code" →
  afterEval C w =
    (Ret tt,
     mkWorld (parentFrame w) (modulesLoading w) (editorRef w) (replState w)
       (pat_data new.1) (pat_id new.1) new.2
       (log w ++ publish w C ++
          [Duplicate data; SetViewingPatternData (pat_data new.1);
           SetActivePattern (pat_id new.1)])).
Proof.
  intros data new Hex Hch. subst new.
  apply strict_ne_true in Hex, Hch.
  destruct w as [pf ml ed rs v ap st l]; simpl in *.
  unfold afterEval, publish, broadcast. step.
  destruct pf; step; rewrite Hex, Hch; step;
    fold data; destruct (duplicate data st) as [p st']; simpl;
    flatten_log; reflexivity.
Qed.

(** An example whose code is unchanged: nothing is written. *)
Lemma afterEval_unchanged w C :
  let id := get (<["code" := JStr C]> (viewingPatternData w)) "id" in
  get (viewingPatternData w) "collection" ≠ userCollection →
  JStr C = get (viewingPatternData w) "code" →
  afterEval C w =
    (Ret tt,
     mkWorld (parentFrame w) (modulesLoading w) (editorRef w) (replState w)
       (viewingPatternData w) id (userPatterns w)
       (log w ++ publish w C ++ [SetActivePattern id])).
Proof.
  intros id Hex Hsame. apply strict_ne_true in Hex. apply strict_ne_false in Hsame.
  destruct w as [pf ml ed rs v ap st l]; simpl in *.
  unfold afterEval, publish, broadcast. step.
  destruct pf; step; rewrite Hex, Hsame; step; flatten_log; reflexivity.
Qed.

(** A user document with a valid id: updated under that id. *)
Lemma afterEval_update w C :
  let data := <["code" := JStr C]> (viewingPatternData w) in
  let id := get data "id" in
  let updated := update id data (userPatterns w) in
  get (viewingPatternData w) "collection" = userCollection →
  isValidID id = true →
  afterEval C w =
    (Ret tt,
     mkWorld (parentFrame w) (modulesLoading w) (editorRef w) (replState w)
       (pat_data updated.1) id updated.2
       (log w ++ publish w C ++
          [IsValidID id; Update id data; SetViewingPatternData (pat_data updated.1);
           SetActivePattern id])).
Proof.
  intros data id updated Hus Hvalid. subst updated.
  apply strict_ne_false in Hus.
  destruct w as [pf ml ed rs v ap st l]; simpl in *.
  unfold afterEval, publish, broadcast. step.
  destruct pf; step; rewrite Hus; step; fold data; fold id; rewrite Hvalid; step;
    destruct (update id data st) as [p st']; simpl; flatten_log; reflexivity.
Qed.

(** A user document without a valid id: updated under a fresh one. *)
Lemma afterEval_fresh w C :
  let data := <["code" := JStr C]> (viewingPatternData w) in
  let id := get data "id" in
  let fresh := createPatternID (userPatterns w) in
  let updated := update (JStr fresh.1) data fresh.2 in
  get (viewingPatternData w) "collection" = userCollection →
  isValidID id = false →
  afterEval C w =
    (Ret tt,
     mkWorld (parentFrame w) (modulesLoading w) (editorRef w) (replState w)
       (pat_data updated.1) (JStr fresh.1) updated.2
       (log w ++ publish w C ++
          [IsValidID id; CreatePatternID; Update (JStr fresh.1) data;
           SetViewingPatternData (pat_data updated.1);
           SetActivePattern (JStr fresh.1)])).
Proof.
  intros data id fresh updated Hus Hvalid. subst updated fresh.
  apply strict_ne_false in Hus.
  destruct w as [pf ml ed rs v ap st l]; simpl in *.
  unfold afterEval, publish, broadcast. step.
  destruct pf; step; rewrite Hus; step; fold data; fold id; rewrite Hvalid; step;
    destruct (createPatternID st) as [f st1]; simpl;
    destruct (update (JStr f) data st1) as [p st']; simpl; flatten_log; reflexivity.
Qed.
End AfterEvalFacts.

Section AfterEvalClaims.
Context {St : Type} `{!Collaborators St}.
Implicit Types (w : World St) (C : string).

Lemma trace_log {A} (m : M (St:=St) A) w t :
  log (exec m w) = log w ++ t → trace m w = t.
Proof. unfold trace. intros ->. by rewrite drop_app_length. Qed.

Lemma trace_of_run {A} (m : M (St:=St) A) w r pf ml ed rs v ap st t :
  m w = (r, mkWorld pf ml ed rs v ap st (log w ++ t)) → trace m w = t.
Proof. intros Hrun. apply trace_log. unfold exec. by rewrite Hrun. Qed.

Lemma get_with_code (o : obj) (v : jsval) k :
  k ≠ "code" → get (<["code" := v]> o) k = get o k.
Proof. intros Hk. unfold get. by rewrite lookup_insert_ne. Qed.

(** C1.  While the viewed document is not of the user collection: if the
    evaluated code [C] differs from the stored code, [duplicate] is called
    once, on the viewed document with its code replaced by [C]; the
    document it returns becomes the viewed document and its id the active
    pattern.  If [C] is the stored code, no document is created, the store
    and the viewed document are untouched, and the active pattern is the
    id of the example. *)
Theorem afterEval_example w C :
  get (viewingPatternData w) "collection" ≠ userCollection →
  let viewed := viewingPatternData w in
  let data := <["code" := JStr C]> viewed in
  let w' := exec (afterEval C) w in
  (JStr C ≠ get viewed "code" →
     let new := duplicate data (userPatterns w) in
     data !! "code" = Some (JStr C) ∧
     List.filter is_document_effect (trace (afterEval C) w) =
       [Duplicate data; SetViewingPatternData (pat_data new.1)] ∧
     userPatterns w' = new.2 ∧
     viewingPatternData w' = pat_data new.1 ∧
     activePattern w' = pat_id new.1)
  ∧
  (JStr C = get viewed "code" →
     List.filter is_document_effect (trace (afterEval C) w) = [] ∧
     userPatterns w' = userPatterns w ∧
     viewingPatternData w' = viewed ∧
     activePattern w' = get viewed "id").
Proof.
  intros Hex viewed data w'. split.
  - intros Hch new. pose proof (afterEval_fork w C Hex Hch) as Hrun.
    split; [apply lookup_insert_eq|].
    split.
    + rewrite (trace_of_run _ _ _ _ _ _ _ _ _ _ _ Hrun).
      rewrite List.filter_app. unfold publish, broadcast.
      by destruct (parentFrame w).
    + subst w'. unfold exec. by rewrite Hrun.
  - intros Hsame. pose proof (afterEval_unchanged w C Hex Hsame) as Hrun.
    split.
    + rewrite (trace_of_run _ _ _ _ _ _ _ _ _ _ _ Hrun).
      rewrite List.filter_app. unfold publish, broadcast.
      by destruct (parentFrame w).
    + subst w'. unfold exec. rewrite Hrun. simpl.
      by rewrite get_with_code.
Qed.

(** C2, as the code has it.  While the viewed document is of the user
    collection, [update] is called on the viewed document with its code
    replaced by [C], and what it returns becomes the viewed document.
    When the id of the viewed document is valid, the document keeps it, no
    id is created, and it becomes the active pattern; when it is not,
    [createPatternID] supplies the id of the update and of the active
    pattern. *)
Theorem afterEval_user w C :
  get (viewingPatternData w) "collection" = userCollection →
  let viewed := viewingPatternData w in
  let data := <["code" := JStr C]> viewed in
  let w' := exec (afterEval C) w in
  data !! "code" = Some (JStr C) ∧
  (isValidID (get viewed "id") = true →
     let updated := update (get viewed "id") data (userPatterns w) in
     List.filter is_document_effect (trace (afterEval C) w) =
       [IsValidID (get viewed "id"); Update (get viewed "id") data;
        SetViewingPatternData (pat_data updated.1)] ∧
     userPatterns w' = updated.2 ∧
     viewingPatternData w' = pat_data updated.1 ∧
     activePattern w' = get viewed "id")
  ∧
  (isValidID (get viewed "id") = false →
     let fresh := createPatternID (userPatterns w) in
     let updated := update (JStr fresh.1) data fresh.2 in
     List.filter is_document_effect (trace (afterEval C) w) =
       [IsValidID (get viewed "id"); CreatePatternID; Update (JStr fresh.1) data;
        SetViewingPatternData (pat_data updated.1)] ∧
     userPatterns w' = updated.2 ∧
     viewingPatternData w' = pat_data updated.1 ∧
     activePattern w' = JStr fresh.1).
Proof.
  intros Hus viewed data w'. subst viewed data w'. cbv zeta.
  assert (Hid : get (<["code" := JStr C]> (viewingPatternData w)) "id"
                = get (viewingPatternData w) "id") by by apply get_with_code.
  split; [apply lookup_insert_eq|]. split.
  - intros Hvalid. rewrite <- Hid in Hvalid.
    pose proof (afterEval_update w C Hus Hvalid) as Hrun.
    simpl in Hrun. rewrite Hid in Hrun. split.
    + rewrite (trace_of_run _ _ _ _ _ _ _ _ _ _ _ Hrun).
      rewrite List.filter_app. unfold publish, broadcast.
      by destruct (parentFrame w).
    + unfold exec. by rewrite Hrun.
  - intros Hvalid. rewrite <- Hid in Hvalid.
    pose proof (afterEval_fresh w C Hus Hvalid) as Hrun.
    simpl in Hrun. rewrite Hid in Hrun. split.
    + rewrite (trace_of_run _ _ _ _ _ _ _ _ _ _ _ Hrun).
      rewrite List.filter_app. unfold publish, broadcast.
      by destruct (parentFrame w).
    + unfold exec. by rewrite Hrun.
Qed.

(** C7.  The effects of [afterEval], in order: the broadcast to the parent
    frame (when the window has one), the latest code, the location
    fragment, the document title, the read of the viewed document and the
    version defaults; then the fork or the update of the viewed document,
    which is, for an example, nothing when the code is unchanged and
    otherwise [duplicate] and the viewed-document pointer set to what it
    returns, and, for a user document, the validity check of its id, a
    fresh id when that fails, [update] and the viewed-document pointer set
    to what it returns; and last [setActivePattern], with the id of the
    fork, of the example, or of the update.  The hook returns, and the id it
    marks is the active pattern afterwards. *)
Theorem afterEval_order w C :
  let viewed := viewingPatternData w in
  let data := <["code" := JStr C]> viewed in
  let forked := duplicate data (userPatterns w) in
  let fresh := createPatternID (userPatterns w) in
  let forkOrUpdate : list effect * jsval :=
    if decide (get viewed "collection" = userCollection) then
      if isValidID (get viewed "id") then
        ([ IsValidID (get viewed "id");
           Update (get viewed "id") data;
           SetViewingPatternData
             (pat_data (update (get viewed "id") data (userPatterns w)).1) ],
         get viewed "id")
      else
        ([ IsValidID (get viewed "id");
           CreatePatternID;
           Update (JStr fresh.1) data;
           SetViewingPatternData (pat_data (update (JStr fresh.1) data fresh.2).1) ],
         JStr fresh.1)
    else if decide (JStr C = get viewed "code") then ([], get viewed "id")
    else ([Duplicate data; SetViewingPatternData (pat_data forked.1)], pat_id forked.1) in
  trace (afterEval C) w =
    (if parentFrame w then [PostMessage C] else []) ++
    [ SetLatestCode C;
      SetLocationHash ("#" +:+ code2hash C);
      SetDocumentTitle (documentTitle C);
      GetViewingPatternData;
      SetVersionDefaultsFrom C ] ++
    forkOrUpdate.1 ++ [SetActivePattern forkOrUpdate.2]
  ∧ result (afterEval C) w = Ret tt
  ∧ activePattern (exec (afterEval C) w) = forkOrUpdate.2.
Proof.
  cbv zeta.
  assert (Hid : get (<["code" := JStr C]> (viewingPatternData w)) "id"
                = get (viewingPatternData w) "id") by by apply get_with_code.
  destruct (decide (get (viewingPatternData w) "collection" = userCollection)) as [Hus|Hex].
  - destruct (isValidID (get (viewingPatternData w) "id")) eqn:Hvalid;
      rewrite <- Hid in Hvalid.
    + pose proof (afterEval_update w C Hus Hvalid) as Hrun.
      simpl in Hrun. rewrite Hid in Hrun.
      rewrite (trace_of_run _ _ _ _ _ _ _ _ _ _ _ Hrun).
      unfold result, exec. rewrite Hrun. unfold publish, broadcast.
      rewrite <- !app_assoc. done.
    + pose proof (afterEval_fresh w C Hus Hvalid) as Hrun.
      simpl in Hrun. rewrite Hid in Hrun.
      rewrite (trace_of_run _ _ _ _ _ _ _ _ _ _ _ Hrun).
      unfold result, exec. rewrite Hrun. unfold publish, broadcast.
      rewrite <- !app_assoc. done.
  - destruct (decide (JStr C = get (viewingPatternData w) "code")) as [Hsame|Hch].
    + pose proof (afterEval_unchanged w C Hex Hsame) as Hrun.
      simpl in Hrun. rewrite Hid in Hrun.
      rewrite (trace_of_run _ _ _ _ _ _ _ _ _ _ _ Hrun).
      unfold result, exec. rewrite Hrun. unfold publish, broadcast.
      rewrite <- !app_assoc. done.
    + pose proof (afterEval_fork w C Hex Hch) as Hrun. simpl in Hrun.
      rewrite (trace_of_run _ _ _ _ _ _ _ _ _ _ _ Hrun).
      unfold result, exec. rewrite Hrun. unfold publish, broadcast.
      rewrite <- !app_assoc. done.
Qed.
End AfterEvalClaims.

(** ** afterEval on the in-memory store *)

Section AfterEvalRuns.
Import MemoryStore.

(** The first scenario of the spec: viewing [ex1], evaluating ["b"]. *)
Lemma afterEval_example_ex1 :
  let w := world ex1 in
  let w' := exec (afterEval "b") w in
  get (viewingPatternData w) "collection" ≠ userCollection
  ∧ activePattern w' = JStr "pattern0"
  ∧ get (viewingPatternData w') "id" = JStr "pattern0"
  ∧ get (viewingPatternData w') "code" = JStr "b".
Proof.
  assert (Hex : get (viewingPatternData (world ex1)) "collection" ≠ userCollection)
    by (vm_compute; discriminate).
  split; [exact Hex|].
  destruct (afterEval_example (world ex1) "b" Hex) as [Hfork _].
  destruct Hfork as (_ & _ & _ & Hviewed & Hactive); [vm_compute; discriminate|].
  rewrite Hviewed, Hactive. vm_compute. done.
Defined.

(** Evaluating while viewing [draft] creates an id, and the active
    pattern is not the id the document had. *)
Lemma afterEval_user_creates_id :
  let w := world draft in
  let w' := exec (afterEval "a") w in
  get (viewingPatternData w) "collection" = userCollection
  ∧ List.filter creates_document (trace (afterEval "a") w) = [CreatePatternID]
  ∧ get (viewingPatternData w) "id" = JStr ""
  ∧ get (viewingPatternData w') "id" = JStr "pattern0"
  ∧ activePattern w' = JStr "pattern0".
Proof. vm_compute. done. Qed.

(** The second scenario of the spec: viewing [u1], evaluating ["a"]. *)
Lemma afterEval_user_u1 :
  let w := world u1 in
  let w' := exec (afterEval "a") w in
  get (viewingPatternData w) "collection" = userCollection
  ∧ isValidID (get (viewingPatternData w) "id") = true
  ∧ activePattern w' = JStr "u1"
  ∧ get (viewingPatternData w') "id" = JStr "u1"
  ∧ get (viewingPatternData w') "code" = JStr "a".
Proof.
  assert (Hus : get (viewingPatternData (world u1)) "collection" = userCollection)
    by (vm_compute; reflexivity).
  assert (Hvalid : isValidID (get (viewingPatternData (world u1)) "id") = true)
    by (vm_compute; reflexivity).
  split; [exact Hus|]. split; [exact Hvalid|].
  destruct (afterEval_user (world u1) "a" Hus) as (_ & Hkeep & _).
  destruct (Hkeep Hvalid) as (_ & _ & Hviewed & Hactive).
  rewrite Hviewed, Hactive. vm_compute. done.
Defined.
End AfterEvalRuns.

(** ** onUpdateState *)

Section OnUpdateStateFacts.
Context {St : Type} `{!Collaborators St}.
Implicit Types (w : World St).

Lemma replState_onUpdateState w state :
  replState (exec (onUpdateState state) w) = state.
Proof. done. Qed.

(** Only [onUpdateState] writes the mirrored state. *)
Lemma replState_dispatch w ev :
  replState (exec (dispatch ev) w) =
    match ev with
    | OnUpdateState state => state
    | _ => replState w
    end.
Proof.
  destruct ev as [state|playing|code|_settings| | |patternData reset|]; simpl.
  - done.
  - unfold onToggle. by destruct (truthy (js_not playing)).
  - destruct (decide (get (viewingPatternData w) "collection" = userCollection)) as [Hus|Hex].
    + destruct (isValidID (get (<["code" := JStr code]> (viewingPatternData w)) "id"))
        eqn:Hvalid; unfold exec.
      * by rewrite (afterEval_update w code Hus Hvalid).
      * by rewrite (afterEval_fresh w code Hus Hvalid).
    + destruct (decide (JStr code = get (viewingPatternData w) "code")) as [Hsame|Hch];
        unfold exec.
      * by rewrite (afterEval_unchanged w code Hex Hsame).
      * by rewrite (afterEval_fork w code Hex Hch).
  - unfold settingsEffect. step. by destruct (editorRef w).
  - unfold handleTogglePlay. step. by destruct (editorRef w).
  - unfold handleEvaluate, editor_evaluate. step. by destruct (editorRef w).
  - unfold handleUpdate, resetEditor, handleEvaluate, editor_evaluate, editor_setCode,
      editor_setCps, getModule.
    step. destruct (editorRef w); [|done]. step.
    destruct (truthy reset); [|done]. step.
    by destruct (List.find _ (modulesLoading w)).
  - done.
Qed.

Lemma updates_snoc evs ev :
  updates (evs ++ [ev]) =
    updates evs ++ match ev with OnUpdateState state => [state] | _ => [] end.
Proof. unfold updates. rewrite omap_app. by destruct ev. Qed.

Lemma dispatch_all_snoc evs ev w :
  dispatch_all (evs ++ [ev]) w = exec (dispatch ev) (dispatch_all evs w).
Proof. unfold dispatch_all. by rewrite foldl_app. Qed.

(** After any events, the mirrored state is the last state notified, or
    the state it started from when none was. *)
Lemma replState_dispatch_all evs w :
  replState (dispatch_all evs w) = default (replState w) (last (updates evs)).
Proof.
  induction evs as [|ev evs IH] using rev_ind; [done|].
  rewrite dispatch_all_snoc, updates_snoc, replState_dispatch.
  destruct ev; rewrite ?app_nil_r, ?last_snoc; done.
Qed.

(** C3, as the code has it.  After an on-update notification carrying
    [S], the mirrored state is [S]: a field of [S] has the value [S] gives
    it, and a field that [S] does not have is absent, whatever the state
    held before.  After any sequence of events the mirrored state is the
    last state notified. *)
Theorem onUpdateState_mirror w S :
  let after := replState (exec (onUpdateState S) w) in
  after = S
  ∧ (∀ field value, S !! field = Some value → after !! field = Some value)
  ∧ (∀ field, S !! field = None → after !! field = None)
  ∧ (∀ evs, replState (dispatch_all (evs ++ [OnUpdateState S]) w) = S)
  ∧ (∀ evs, replState (dispatch_all evs w) = default (replState w) (last (updates evs))).
Proof.
  intros after. subst after. rewrite replState_onUpdateState.
  repeat split; try done.
  - intros evs. by rewrite dispatch_all_snoc, replState_dispatch.
  - intros evs. apply replState_dispatch_all.
Qed.
End OnUpdateStateFacts.

Section OnUpdateStateRuns.
Import MemoryStore.

(** The field [error] of the mirrored state is gone after the update. *)
Lemma onUpdateState_deletes_field :
  let w := set_replState failed (world u1) in
  let after := replState (exec (onUpdateState recovered) w) in
  replState w !! "error" = Some (JStr "boom") ∧ after !! "error" = None.
Proof. vm_compute. done. Qed.
End OnUpdateStateRuns.

(** ** The settings effect *)

Section SettingsFacts.
Context {St : Type} `{!Collaborators St}.
Implicit Types (w : World St) (_settings : obj).

(** The [forEach], from any object built so far and over any keys. *)
Lemma forEach_lookup _settings (keys : list string) (built : obj) key :
  foldl (fun editorSettings key =>
           if hasOwnProperty _settings key
           then <[key := get _settings key]> editorSettings
           else editorSettings) built keys !! key =
    if decide (key ∈ keys)
    then match _settings !! key with
         | Some value => Some value
         | None => built !! key
         end
    else built !! key.
Proof.
  revert built. induction keys as [|k keys IH]; intros built; simpl.
  - done.
  - rewrite IH. unfold hasOwnProperty, get.
    assert (Hown : ∀ o : option jsval,
               bool_decide (is_Some o) = match o with Some _ => true | None => false end).
    { intros [v|]; [by apply bool_decide_eq_true_2|].
      apply bool_decide_eq_false_2. by intros [? ?]. }
    rewrite Hown.
    destruct (decide (key = k)) as [->|Hne].
    + rewrite (decide_True (P := k ∈ k :: keys)) by apply list_elem_of_here.
      destruct (_settings !! k) as [v|] eqn:Hk; simpl.
      * rewrite lookup_insert_eq. by case_decide.
      * by case_decide.
    + assert (Hrest : (if match _settings !! k with Some _ => true | None => false end
                       then <[k := default JUndefined (_settings !! k)]> built
                       else built) !! key = built !! key).
      { destruct (_settings !! k); [|done]. by rewrite lookup_insert_ne. }
      rewrite Hrest.
      destruct (decide (key ∈ keys)) as [Hin|Hout].
      * rewrite decide_True; [done|]. by apply list_elem_of_further.
      * rewrite decide_False; [done|]. rewrite elem_of_cons. by intros [?|?].
Qed.

(** C4.  The settings effect does not throw; it calls [updateSettings]
    once when an editor is attached (and not at all otherwise), with an
    object that has, for each key of [defaultSettings] that the observed
    settings have, the observed value, and no other key. *)
Theorem settingsEffect_recognized w _settings :
  result (settingsEffect _settings) w = Ret tt
  ∧ trace (settingsEffect _settings) w =
      match editorRef w with
      | Some _ => [UpdateSettings (editorSettings _settings)]
      | None => []
      end
  ∧ (∀ key, editorSettings _settings !! key =
              if decide (key ∈ defaultSettingsKeys) then _settings !! key else None)
  ∧ dom (editorSettings _settings) = list_to_set defaultSettingsKeys ∩ dom _settings.
Proof.
  assert (Hlookup : ∀ key, editorSettings _settings !! key =
            if decide (key ∈ defaultSettingsKeys) then _settings !! key else None).
  { intros key. unfold editorSettings. rewrite forEach_lookup, lookup_empty.
    case_decide; [|done]. by destruct (_settings !! key). }
  split; [|split; [|split]].
  - unfold settingsEffect. step. by destruct (editorRef w).
  - apply trace_log. unfold settingsEffect. step.
    destruct (editorRef w); simpl; [done|]. by rewrite app_nil_r.
  - exact Hlookup.
  - apply set_eq. intros key.
    rewrite elem_of_intersection, !elem_of_dom, elem_of_list_to_set, Hlookup.
    case_decide as Hkey.
    + split; [by intros Hsome|by intros [_ Hsome]].
    + split; [by intros [? ?]|by intros [? _]].
Qed.
End SettingsFacts.

(** ** handleShare *)

Section ShareFacts.
Context {St : Type} `{!Collaborators St}.
Implicit Types (w : World St).

(** C5, as the code has it.  [handleShare] calls [shareCode] once, with
    what the field [code] of the mirrored state holds ([undefined] when
    the state has no such field), and does not throw. *)
Theorem handleShare_code w :
  trace handleShare w = [ShareCode (get (replState w) "code")]
  ∧ result handleShare w = Ret tt.
Proof. split; [|done]. by apply trace_log. Qed.
End ShareFacts.

Section ShareRuns.
Import MemoryStore.

(** With ["a"] evaluated and ["b"] in the editor, ["b"] is shared, which
    is not what [activeCode] holds. *)
Lemma handleShare_not_activeCode :
  let w := set_replState edited (world u1) in
  activeCode (context (replState w)) = JStr "a"
  ∧ trace handleShare w = [ShareCode (JStr "b")].
Proof. vm_compute. done. Qed.
End ShareRuns.

(** ** resetEditor *)

Section ResetFacts.
Context {St : Type} `{!Collaborators St}.
Implicit Types (w : World St).

Lemma resetEditor_attached w e :
  editorRef w = Some e →
  resetEditor w =
    (Ret tt,
     mkWorld (parentFrame w) (modulesLoading w)
       (Some {| editorCode := editorCode e; replCps := Qmake 1 2 |})
       (replState w) (viewingPatternData w) (activePattern w) (userPatterns w)
       (log w ++ voicings w ++ resets)).
Proof.
  destruct w as [pf ml ed rs v ap st l]; simpl. intros ->.
  unfold resetEditor, getModule, editor_setCps, voicings, resets. step.
  destruct (List.find _ ml); step; flatten_log; reflexivity.
Qed.

Lemma resetEditor_unattached w :
  editorRef w = None →
  resetEditor w =
    (Throw (TypeError "Cannot read properties of undefined"),
     set_log (log w ++ voicings w ++
                [ResetGlobalEffects; ClearCanvas; ClearHydra; ResetLoadedSounds]) w).
Proof.
  destruct w as [pf ml ed rs v ap st l]; simpl. intros ->.
  unfold resetEditor, getModule, editor_setCps, voicings. step.
  destruct (List.find _ ml); step; flatten_log; reflexivity.
Qed.

(** C6, as the code has it.  With an editor attached, [resetEditor]
    performs, whatever the rest of the state, the global effects reset,
    the canvas clear, the release of the visual resource, the sample-cache
    reset, the clock-rate reset and the preload re-priming, in this order
    and each once, after the voicings reset of the tonal module when that
    module is loaded; it returns, and the clock rate of the editor is
    0.5. *)
Theorem resetEditor_resets w e :
  editorRef w = Some e →
  result resetEditor w = Ret tt
  ∧ trace resetEditor w =
      voicings w ++
      [ResetGlobalEffects; ClearCanvas; ClearHydra; ResetLoadedSounds;
       SetCps (Qmake 1 2); Prebake]
  ∧ Forall (fun reset => reset ∈ trace resetEditor w) resets
  ∧ replCps <$> editorRef (exec resetEditor w) = Some (Qmake 1 2).
Proof.
  intros He. pose proof (resetEditor_attached w e He) as Hrun.
  assert (Htrace : trace resetEditor w = voicings w ++ resets)
    by exact (trace_of_run _ _ _ _ _ _ _ _ _ _ _ Hrun).
  split; [|split; [|split]].
  - unfold result. by rewrite Hrun.
  - exact Htrace.
  - rewrite Htrace. apply Forall_forall. intros reset Hin.
    apply elem_of_app. by right.
  - unfold exec. by rewrite Hrun.
Qed.
End ResetFacts.

Section ResetRuns.
Import MemoryStore.

Lemma resetEditor_resets_world :
  editorRef (world u1) = Some {| editorCode := JStr ""; replCps := Qmake 1 2 |}
  ∧ result resetEditor (world u1) = Ret tt
  ∧ trace resetEditor (world u1) = ResetVoicings :: resets.
Proof.
  split; [reflexivity|].
  destruct (resetEditor_resets (world u1) _ eq_refl) as (Hret & Htrace & _).
  split; [exact Hret|]. rewrite Htrace. reflexivity.
Defined.

(** Before an editor is attached, [resetEditor] throws after the
    sample-cache reset: the clock rate is not reset and the preload is
    not primed again. *)
Lemma resetEditor_unmounted :
  let w := unmounted u1 in
  result resetEditor w = Throw (TypeError "Cannot read properties of undefined")
  ∧ trace resetEditor w =
      [ResetVoicings; ResetGlobalEffects; ClearCanvas; ClearHydra; ResetLoadedSounds]
  ∧ (Prebake ∉ trace resetEditor w)
  ∧ (SetCps (Qmake 1 2) ∉ trace resetEditor w).
Proof.
  assert (Htrace : trace resetEditor (unmounted u1) =
            [ResetVoicings; ResetGlobalEffects; ClearCanvas; ClearHydra; ResetLoadedSounds])
    by (vm_compute; reflexivity).
  cbv zeta. rewrite Htrace.
  split; [vm_compute; reflexivity|]. split; [reflexivity|].
  split; repeat (apply not_elem_of_cons; split; [discriminate|]);
    apply not_elem_of_nil.
Qed.
End ResetRuns.

(** ** onToggle *)

Section OnToggleFacts.
Context {St : Type} `{!Collaborators St}.
Implicit Types (w : World St).

Lemma onToggle_run w playing :
  onToggle playing w =
    (Ret tt, set_log (log w ++ (if truthy playing then [] else [ClearHydra])) w).
Proof.
  unfold onToggle. rewrite truthy_not.
  destruct (truthy playing); simpl.
  - unfold ret. by rewrite app_nil_r, set_log_log.
  - done.
Qed.

Lemma onToggles_log playings w :
  log (exec (onToggles playings) w) =
    log w ++ flat_map (fun playing => if truthy playing then [] else [ClearHydra]) playings.
Proof.
  revert w. induction playings as [|playing rest IH]; intros w; simpl.
  - by rewrite app_nil_r.
  - rewrite (exec_bind _ _ _ tt) by (unfold result; by rewrite onToggle_run).
    rewrite IH. unfold exec at 1. rewrite onToggle_run. simpl.
    by rewrite <- app_assoc.
Qed.

(** C8.  A notification with [playing = false] releases the visual
    resource once, one with [playing = true] does not release it; over any
    sequence of notifications there are as many releases as notifications
    of a stop, and nothing else is done. *)
Theorem onToggle_release w :
  trace (onToggle (JBool false)) w = [ClearHydra]
  ∧ trace (onToggle (JBool true)) w = []
  ∧ (∀ playings,
       Forall (fun e => e = ClearHydra) (trace (onToggles playings) w)
       ∧ length (trace (onToggles playings) w) =
           length (List.filter (fun playing => negb (truthy playing)) playings)).
Proof.
  split; [|split].
  - apply trace_log. unfold exec. by rewrite onToggle_run.
  - apply trace_log. unfold exec. by rewrite onToggle_run.
  - intros playings. rewrite (trace_log _ _ _ (onToggles_log playings w)).
    induction playings as [|playing rest [IHall IHlen]]; simpl; [done|].
    destruct (truthy playing); simpl; [done|].
    split; [by constructor|]. by rewrite IHlen.
Qed.
End OnToggleFacts.

(** ** The toolbar *)

Section ToolbarFacts.
Import Toolbar.
Implicit Types (context : ReplContext) (settings : Settings).

(** Rewrite with the truth values at hand and evaluate the class lists. *)
Ltac render :=
  cbv [Header cx cond when js_and js_or js_not
       logo_className buttonRow update_className play_className play_title
       play_content];
  simpl;
  repeat match goal with
         | H : truthy _ = _ |- _ => rewrite !H; simpl
         end.

Lemma Header_logo_spins context embedded framed settings :
  spins (logo_className (Header context embedded framed settings)) =
    truthy (started context) && negb (truthy (isCSSAnimationDisabled settings)).
Proof.
  destruct (truthy (started context)) eqn:Hstarted;
    destruct (truthy (isCSSAnimationDisabled settings)) eqn:Hdisabled;
    destruct (truthy (isZen settings)) eqn:Hzen;
    render; reflexivity.
Qed.

Lemma Header_buttonRow_shown context embedded framed settings :
  is_Some (buttonRow (Header context embedded framed settings)) ↔
    truthy (isZen settings) = false ∧ truthy (isButtonRowHidden settings) = false.
Proof.
  destruct (truthy (isZen settings)) eqn:Hzen;
    destruct (truthy (isButtonRowHidden settings)) eqn:Hhidden;
    render; split; try (intros [? ?]; done); try (intros [row Hrow]; done); eauto.
Qed.

(** C9, as the code has it.  The spinning indicator is the logo of the
    header, not the play/stop control: the logo spins exactly when the
    session is started and CSS animation is not disabled.  When the button
    row is shown (neither zen mode nor a hidden row), the update control is
    dimmed exactly when [isDirty] is falsy or [activeCode] is falsy, and
    the play/stop control never spins; it pulses exactly when the session
    is not started and CSS animation is not disabled. *)
Theorem Header_styling context embedded framed settings :
  let view := Header context embedded framed settings in
  spins (logo_className view) =
    truthy (started context) && negb (truthy (isCSSAnimationDisabled settings))
  ∧ match buttonRow view with
    | Some row =>
        dimmed (update_className row) =
          negb (truthy (isDirty context)) || negb (truthy (activeCode context))
        ∧ spins (play_className row) = false
        ∧ pulses (play_className row) =
            negb (truthy (started context))
            && negb (truthy (isCSSAnimationDisabled settings))
    | None =>
        truthy (isZen settings) || truthy (isButtonRowHidden settings) = true
    end.
Proof.
  intros view. subst view. split; [apply Header_logo_spins|].
  destruct (truthy (isZen settings)) eqn:Hzen;
    destruct (truthy (isButtonRowHidden settings)) eqn:Hhidden;
    render; try reflexivity.
  destruct (truthy (started context)) eqn:Hstarted;
    destruct (truthy (isCSSAnimationDisabled settings)) eqn:Hdisabled;
    destruct (truthy (isDirty context)) eqn:Hdirty;
    destruct (truthy (activeCode context)) eqn:Hcode;
    destruct (truthy embedded) eqn:Hembedded;
    destruct framed;
    render; done.
Qed.

(** While the session is started and animation is enabled, the play/stop
    control is rendered and does not spin. *)
Lemma Header_play_control_does_not_spin :
  truthy (started playing) = true
  ∧ truthy (isCSSAnimationDisabled plain) = false
  ∧ (play_className <$> buttonRow (Header playing (JBool false) false plain))
      = Some ["p-2"; "hover:opacity-50"]
  ∧ (spins ∘ play_className <$> buttonRow (Header playing (JBool false) false plain))
      = Some false.
Proof. vm_compute. done. Qed.


End ToolbarFacts.

Section InitialStateFacts.
Context {St : Type} `{!Collaborators St}.
Import Toolbar.
Implicit Types (w : World St).

End InitialStateFacts.

Section InitialStateRuns.
Import MemoryStore Toolbar.

End InitialStateRuns.

(** * Further properties of the hook and of the toolbar *)

(** ** Output backend and clock *)

Section BackendFacts.
Variable osc : jsval.

(** The OSC output is chosen exactly for the OSC target, any other target
    (an unknown or a missing one too) gets the web-audio output; and the
    clock always goes with the output: the performance clock with OSC, the
    clock of the audio context with web audio. *)
Theorem backend_pairing (audioEngineTarget : jsval) :
  (defaultOutput osc audioEngineTarget = superdirtOutput ↔ audioEngineTarget = osc)
  ∧ (defaultOutput osc audioEngineTarget = webaudioOutput ↔ audioEngineTarget ≠ osc)
  ∧ (getTime osc audioEngineTarget = getPerformanceTimeSeconds
       ↔ defaultOutput osc audioEngineTarget = superdirtOutput)
  ∧ (getTime osc audioEngineTarget = getAudioContextCurrentTime
       ↔ defaultOutput osc audioEngineTarget = webaudioOutput).
Proof.
  unfold defaultOutput, getTime, shouldUseWebaudio.
  destruct (strict_ne audioEngineTarget osc) eqn:Hne.
  - apply strict_ne_true in Hne. repeat split; try done.
  - apply strict_ne_false in Hne. repeat split; try done.
Qed.
End BackendFacts.

(** ** The document title *)

Section TitleFacts.
Context {St : Type} `{!Collaborators St}.

Lemma length_append (a b : string) :
  String.length (a +:+ b) = String.length a + String.length b.
Proof.
  induction a as [|c a IH]; [done|].
  change (S (String.length (a +:+ b)) = S (String.length a) + String.length b).
  by rewrite IH.
Qed.

Lemma append_assoc (a b c : string) : (a +:+ b) +:+ c = a +:+ (b +:+ c).
Proof.
  induction a as [|x a IH]; [done|].
  change (String x ((a +:+ b) +:+ c) = String x (a +:+ (b +:+ c))).
  by rewrite IH.
Qed.

(** The title of the document is the bare name of the application exactly
    when the metadata of the code has no title or an empty one; any other
    title comes first, followed by a dash and the name. *)
Theorem documentTitle_cases (code : string) :
  (documentTitle code = "Strudel REPL"
     ↔ metaTitle code = None ∨ metaTitle code = Some "")
  ∧ (∀ title, metaTitle code = Some title → title ≠ "" →
       documentTitle code = title +:+ " - Strudel REPL").
Proof.
  unfold documentTitle. split.
  - destruct (metaTitle code) as [title|]; simpl; [|by split; [left|]].
    destruct (String.eqb title "") eqn:Hempty; simpl.
    + apply String.eqb_eq in Hempty as ->. by split; [right|].
    + apply String.eqb_neq in Hempty. split.
      * intros Heq. apply (f_equal String.length) in Heq.
        rewrite !length_append in Heq. simpl in Heq. lia.
      * intros [?|[= ->]]; done.
  - intros title Htitle Hne. rewrite Htitle. unfold truthy.
    apply String.eqb_neq in Hne. rewrite Hne.
    exact (append_assoc title " - " "Strudel REPL").
Qed.
End TitleFacts.

(** ** Evaluating again *)

Section IdentityFacts.
Context {St : Type} `{!Collaborators St}.
Implicit Types (w : World St) (C : string).

(** What the hook needs of the store to keep a document under its id:
    [update] under a valid id returns a document of the user collection
    with that id. *)
Hypothesis update_keeps :
  ∀ id data st, isValidID id = true →
    get (pat_data (update id data st).1) "id" = id
    ∧ get (pat_data (update id data st).1) "collection" = userCollection.

Lemma afterEval_user_keeps w C :
  get (viewingPatternData w) "collection" = userCollection →
  isValidID (get (viewingPatternData w) "id") = true →
  let w' := exec (afterEval C) w in
  get (viewingPatternData w') "id" = get (viewingPatternData w) "id"
  ∧ get (viewingPatternData w') "collection" = userCollection
  ∧ activePattern w' = get (viewingPatternData w) "id"
  ∧ ∃ t, log w' = log w ++ t ∧ List.filter creates_document t = [].
Proof using Type*.
  intros Hus Hvalid.
  assert (Hid : get (<["code" := JStr C]> (viewingPatternData w)) "id"
                = get (viewingPatternData w) "id") by by apply get_with_code.
  rewrite <- Hid in Hvalid.
  pose proof (afterEval_update w C Hus Hvalid) as Hrun. simpl in Hrun.
  rewrite Hid in Hrun, Hvalid.
  unfold exec. rewrite Hrun. simpl.
  destruct (update_keeps _ (<["code" := JStr C]> (viewingPatternData w))
              (userPatterns w) Hvalid) as [Hkeep Hcoll].
  split; [exact Hkeep|]. split; [exact Hcoll|]. split; [done|].
  eexists. split; [reflexivity|].
  rewrite List.filter_app. unfold publish, broadcast.
  by destruct (parentFrame w).
Qed.

Lemma afterEvals_user_keep (codes : list string) w :
  get (viewingPatternData w) "collection" = userCollection →
  isValidID (get (viewingPatternData w) "id") = true →
  let w' := dispatch_all (AfterEval <$> codes) w in
  get (viewingPatternData w') "id" = get (viewingPatternData w) "id"
  ∧ (∃ t, log w' = log w ++ t ∧ List.filter creates_document t = [])
  ∧ (codes ≠ [] → activePattern w' = get (viewingPatternData w) "id").
Proof using Type*.
  revert w. induction codes as [|C codes IH]; intros w Hus Hvalid.
  - split; [done|]. split; [|done]. exists []. by rewrite app_nil_r.
  - destruct (afterEval_user_keeps w C Hus Hvalid) as (Hid & Hcoll & Hactive & t & Hlog & Ht).
    rewrite <- Hid in Hvalid.
    destruct (IH (exec (afterEval C) w) Hcoll Hvalid) as (Hid' & (t' & Hlog' & Ht') & Hactive').
    change (dispatch_all (AfterEval <$> C :: codes) w)
      with (dispatch_all (AfterEval <$> codes) (exec (afterEval C) w)).
    cbv zeta. split; [by rewrite Hid'|]. split.
    + exists (t ++ t'). split; [by rewrite Hlog', Hlog, app_assoc|].
      by rewrite List.filter_app, Ht, Ht'.
    + intros _. destruct codes as [|C' codes]; [exact Hactive|].
      rewrite Hactive' by done. exact Hid.
Qed.

(** Under such a store, a user document with a valid id keeps it through
    any number of evaluations: no document and no id is ever created, the
    viewed document has the same id afterwards, and that id is the active
    pattern as soon as one evaluation has happened. *)
Theorem evaluations_keep_id (codes : list string) w :
  get (viewingPatternData w) "collection" = userCollection →
  isValidID (get (viewingPatternData w) "id") = true →
  let w' := dispatch_all (AfterEval <$> codes) w in
  get (viewingPatternData w') "id" = get (viewingPatternData w) "id"
  ∧ List.filter creates_document (drop (length (log w)) (log w')) = []
  ∧ (codes ≠ [] → activePattern w' = get (viewingPatternData w) "id").
Proof using Type*.
  intros Hus Hvalid.
  destruct (afterEvals_user_keep codes w Hus Hvalid) as (Hid & (t & Hlog & Ht) & Hactive).
  cbv zeta. split; [exact Hid|]. split; [|exact Hactive].
  by rewrite Hlog, drop_app_length.
Qed.

(** Under such a store an example is forked at most once: when the
    document [duplicate] returns is a user document with a valid id, the
    evaluations after the fork create nothing more and stay on the id of
    the fork. *)
Theorem fork_once (codes : list string) w C :
  get (viewingPatternData w) "collection" ≠ userCollection →
  JStr C ≠ get (viewingPatternData w) "code" →
  let new := duplicate (<["code" := JStr C]> (viewingPatternData w)) (userPatterns w) in
  get (pat_data new.1) "collection" = userCollection →
  isValidID (get (pat_data new.1) "id") = true →
  let forked := exec (afterEval C) w in
  let w' := dispatch_all (AfterEval <$> codes) forked in
  List.filter creates_document (drop (length (log w)) (log forked)) =
    [Duplicate (<["code" := JStr C]> (viewingPatternData w))]
  ∧ List.filter creates_document (drop (length (log forked)) (log w')) = []
  ∧ get (viewingPatternData w') "id" = get (pat_data new.1) "id".
Proof using Type*.
  intros Hex Hch new Hcoll Hvalid forked w'.
  pose proof (afterEval_fork w C Hex Hch) as Hrun. simpl in Hrun.
  assert (Hviewed : viewingPatternData forked = pat_data new.1).
  { subst forked. unfold exec. by rewrite Hrun. }
  assert (Hlog : log forked = log w ++ publish w C ++
            [Duplicate (<["code" := JStr C]> (viewingPatternData w));
             SetViewingPatternData (pat_data new.1); SetActivePattern (pat_id new.1)]).
  { subst forked. unfold exec. by rewrite Hrun. }
  rewrite <- Hviewed in Hcoll, Hvalid.
  destruct (afterEvals_user_keep codes forked Hcoll Hvalid) as (Hid & (t & Hlog' & Ht) & _).
  split; [|split].
  - rewrite Hlog, drop_app_length, List.filter_app. unfold publish, broadcast.
    by destruct (parentFrame w).
  - subst w'. by rewrite Hlog', drop_app_length.
  - subst w'. by rewrite Hid, Hviewed.
Qed.
End IdentityFacts.

Section IdentityRuns.
Import MemoryStore.

(** The in-memory store keeps a document under the id it is updated with. *)
Lemma store_update_keeps (id : jsval) (data : obj) (st : store) :
  isValidID id = true →
  get (pat_data (update id data st).1) "id" = id
  ∧ get (pat_data (update id data st).1) "collection" = userCollection.
Proof.
  intros _. simpl. unfold get. split.
  - rewrite lookup_insert_ne by done. by rewrite lookup_insert_eq.
  - by rewrite lookup_insert_eq.
Qed.

Lemma evaluations_keep_id_u1 :
  let w' := dispatch_all (AfterEval <$> ["b"; "c"]) (world u1) in
  get (viewingPatternData (world u1)) "collection" = userCollection
  ∧ isValidID (get (viewingPatternData (world u1)) "id") = true
  ∧ get (viewingPatternData w') "id" = JStr "u1"
  ∧ activePattern w' = JStr "u1".
Proof.
  assert (Hus : get (viewingPatternData (world u1)) "collection" = userCollection)
    by (vm_compute; reflexivity).
  assert (Hvalid : isValidID (get (viewingPatternData (world u1)) "id") = true)
    by (vm_compute; reflexivity).
  split; [exact Hus|]. split; [exact Hvalid|].
  destruct (evaluations_keep_id store_update_keeps ["b"; "c"] (world u1) Hus Hvalid)
    as (Hid & _ & Hactive).
  split; [exact Hid|]. by apply Hactive.
Defined.

Lemma fork_once_ex1 :
  let forked := exec (afterEval "b") (world ex1) in
  let w' := dispatch_all (AfterEval <$> ["c"; "d"]) forked in
  get (viewingPatternData (world ex1)) "collection" ≠ userCollection
  ∧ JStr "b" ≠ get (viewingPatternData (world ex1)) "code"
  ∧ List.filter creates_document (drop (length (log forked)) (log w')) = []
  ∧ get (viewingPatternData w') "id" = JStr "pattern0".
Proof.
  assert (Hex : get (viewingPatternData (world ex1)) "collection" ≠ userCollection)
    by (vm_compute; discriminate).
  assert (Hch : JStr "b" ≠ get (viewingPatternData (world ex1)) "code")
    by (vm_compute; discriminate).
  split; [exact Hex|]. split; [exact Hch|].
  destruct (fork_once store_update_keeps ["c"; "d"] (world ex1) "b" Hex Hch)
    as (_ & Hnone & Hid); [vm_compute; reflexivity..|].
  split; [exact Hnone|]. rewrite Hid. vm_compute. reflexivity.
Defined.
End IdentityRuns.

(** ** The forwarded settings *)

Section ForwardedFacts.
Context {St : Type} `{!Collaborators St}.
Implicit Types (_settings : obj).

Lemma editorSettings_lookup _settings key :
  editorSettings _settings !! key =
    if decide (key ∈ defaultSettingsKeys) then _settings !! key else None.
Proof.
  unfold editorSettings. rewrite forEach_lookup, lookup_empty.
  case_decide; [|done]. by destruct (_settings !! key).
Qed.

(** The forwarded object is a part of the observed settings (no value is
    made up), and forwarding what was forwarded changes nothing. *)
Theorem editorSettings_projection _settings :
  editorSettings _settings ⊆ _settings
  ∧ editorSettings (editorSettings _settings) = editorSettings _settings.
Proof.
  split.
  - apply map_subseteq_spec. intros key value.
    rewrite editorSettings_lookup. by case_decide.
  - apply map_eq. intros key. rewrite !editorSettings_lookup. by case_decide.
Qed.

(** Two observed settings are forwarded as the same object exactly when
    they agree on every key of [defaultSettings]: a change of any other key
    is never seen by the editor. *)
Theorem editorSettings_agree (_settings1 _settings2 : obj) :
  editorSettings _settings1 = editorSettings _settings2
  ↔ ∀ key, key ∈ defaultSettingsKeys → _settings1 !! key = _settings2 !! key.
Proof.
  split.
  - intros Heq key Hkey.
    assert (Hlookup : editorSettings _settings1 !! key = editorSettings _settings2 !! key)
      by by rewrite Heq.
    rewrite !editorSettings_lookup in Hlookup. by rewrite !decide_True in Hlookup.
  - intros Hagree. apply map_eq. intros key. rewrite !editorSettings_lookup.
    case_decide; [by apply Hagree|done].
Qed.
End ForwardedFacts.

(** ** The actions on the editor *)

Section ActionFacts.
Context {St : Type} `{!Collaborators St}.
Implicit Types (w : World St).

(** Without an editor, toggling play does nothing and returns, while
    evaluating throws a [TypeError]; with one, each makes exactly its call to
    the editor.  Neither changes anything but the log. *)
Theorem toggle_and_evaluate w :
  result handleTogglePlay w = Ret tt
  ∧ trace handleTogglePlay w = (if editorRef w is Some _ then [Toggle] else [])
  ∧ result handleEvaluate w =
      (if editorRef w is Some _ then Ret tt
       else Throw (TypeError "Cannot read properties of undefined"))
  ∧ trace handleEvaluate w = (if editorRef w is Some _ then [Evaluate] else [])
  ∧ set_log (log w) (exec handleTogglePlay w) = w
  ∧ set_log (log w) (exec handleEvaluate w) = w.
Proof.
  destruct w as [pf ml ed rs v ap st l].
  unfold trace, handleTogglePlay, handleEvaluate, editor_evaluate. step.
  destruct ed; simpl; rewrite ?drop_app_length, ?drop_all; done.
Qed.

Lemma handleUpdate_attached w e patternData reset :
  editorRef w = Some e →
  handleUpdate patternData reset w =
    (Ret tt,
     mkWorld (parentFrame w) (modulesLoading w)
       (Some {| editorCode := get patternData "code";
                replCps := if truthy reset then Qmake 1 2 else replCps e |})
       (replState w) patternData (activePattern w) (userPatterns w)
       (log w ++ [SetViewingPatternData patternData; SetCode (get patternData "code")]
          ++ (if truthy reset then voicings w ++ resets ++ [Evaluate] else []))).
Proof.
  destruct w as [pf ml ed rs v ap st l]; simpl. intros ->.
  unfold handleUpdate, resetEditor, handleEvaluate, editor_evaluate, editor_setCode,
    editor_setCps, getModule, voicings, resets.
  step. destruct (truthy reset); step; [|flatten_log; reflexivity].
  destruct (List.find _ ml); step; flatten_log; reflexivity.
Qed.

(** With an editor attached, [handleUpdate] makes the document the viewed
    one and puts its code (or [undefined], when it has none) into the
    editor; only when a reset is asked for does it go on with the resets and
    then one evaluation, in this order. It leaves the store, the active
    pattern and the session state alone. *)
Theorem handleUpdate_loads w e patternData reset :
  editorRef w = Some e →
  let w' := exec (handleUpdate patternData reset) w in
  result (handleUpdate patternData reset) w = Ret tt
  ∧ viewingPatternData w' = patternData
  ∧ editorCode <$> editorRef w' = Some (get patternData "code")
  ∧ trace (handleUpdate patternData reset) w =
      [SetViewingPatternData patternData; SetCode (get patternData "code")]
      ++ (if truthy reset then voicings w ++ resets ++ [Evaluate] else [])
  ∧ userPatterns w' = userPatterns w
  ∧ activePattern w' = activePattern w
  ∧ replState w' = replState w.
Proof.
  intros He. pose proof (handleUpdate_attached w e patternData reset He) as Hrun.
  cbv zeta. rewrite (trace_of_run _ _ _ _ _ _ _ _ _ _ _ Hrun).
  unfold result, exec. rewrite Hrun. done.
Qed.

(** Without an editor, [handleUpdate] throws, but only after it has made
    the document the viewed one: the viewed document is replaced although
    nothing was loaded, and nothing else has changed. *)
Theorem handleUpdate_unattached w patternData reset :
  editorRef w = None →
  result (handleUpdate patternData reset) w =
    Throw (TypeError "Cannot read properties of undefined")
  ∧ exec (handleUpdate patternData reset) w =
      set_log (log w ++ [SetViewingPatternData patternData])
        (set_viewingPatternData patternData w).
Proof.
  destruct w as [pf ml ed rs v ap st l]; simpl. intros ->.
  unfold handleUpdate, editor_setCode. step. done.
Qed.

Lemma find_module (name : string) (modules : list string) :
  is_Some (List.find (fun m => String.eqb m name) modules) ↔ name ∈ modules.
Proof.
  induction modules as [|m modules IH]; simpl.
  - split; [by intros [? ?]|]. by intros ?%elem_of_nil.
  - rewrite elem_of_cons. destruct (String.eqb m name) eqn:Hm.
    + apply String.eqb_eq in Hm as ->. split; [by left|eauto].
    + apply String.eqb_neq in Hm. rewrite IH. split; [by right|].
      intros [->|?]; done.
Qed.

(** [resetEditor] resets the voicings exactly when the tonal module is
    among the loaded ones, with or without an editor, and then before
    anything else. *)
Theorem resetEditor_voicings w :
  (ResetVoicings ∈ trace resetEditor w ↔ "@strudel/tonal" ∈ modulesLoading w)
  ∧ ∃ rest, trace resetEditor w = voicings w ++ rest ∧ ResetVoicings ∉ rest.
Proof.
  assert (Hrest : ∃ rest, trace resetEditor w = voicings w ++ rest ∧ ResetVoicings ∉ rest).
  { destruct (editorRef w) as [e|] eqn:He.
    - eexists. split.
      + exact (trace_of_run _ _ _ _ _ _ _ _ _ _ _ (resetEditor_attached w e He)).
      + unfold resets. repeat (apply not_elem_of_cons; split; [discriminate|]).
        apply not_elem_of_nil.
    - eexists. split.
      + apply trace_log. unfold exec. rewrite (resetEditor_unattached w He). reflexivity.
      + repeat (apply not_elem_of_cons; split; [discriminate|]). apply not_elem_of_nil. }
  split; [|exact Hrest].
  destruct Hrest as (rest & -> & Hrest). rewrite elem_of_app, <- find_module.
  unfold voicings. destruct (List.find _ (modulesLoading w)) as [m|].
  - split; [eauto|]. intros _. left. apply list_elem_of_here.
  - split; [|by intros [? ?]]. intros [Hin|Hin]; [by apply elem_of_nil in Hin|done].
Qed.

(** With an editor attached, [resetEditor] changes nothing in the state but
    the clock rate of the editor, and doing it again changes nothing at
    all: its code, the viewed document, the active pattern, the store and
    the session state stay as they are. *)
Theorem resetEditor_idempotent w e :
  editorRef w = Some e →
  let once := exec resetEditor w in
  set_log (log w) once =
    set_editorRef (Some {| editorCode := editorCode e; replCps := Qmake 1 2 |}) w
  ∧ set_log (log once) (exec resetEditor once) = once.
Proof.
  intros He. pose proof (resetEditor_attached w e He) as Hrun.
  assert (Honce : exec resetEditor w =
            mkWorld (parentFrame w) (modulesLoading w)
              (Some {| editorCode := editorCode e; replCps := Qmake 1 2 |})
              (replState w) (viewingPatternData w) (activePattern w) (userPatterns w)
              (log w ++ voicings w ++ resets))
    by (unfold exec; by rewrite Hrun).
  cbv zeta. rewrite Honce. split; [done|].
  match goal with
  | |- context [exec resetEditor ?once] =>
      pose proof (resetEditor_attached once
                    {| editorCode := editorCode e; replCps := Qmake 1 2 |} eq_refl) as Hagain
  end.
  unfold exec. by rewrite Hagain.
Qed.
End ActionFacts.

Section ActionRuns.
Import MemoryStore.

Lemma handleUpdate_loads_ex1 :
  let w' := exec (handleUpdate ex1 (JBool false)) (world u1) in
  editorRef (world u1) = Some {| editorCode := JStr ""; replCps := Qmake 1 2 |}
  ∧ viewingPatternData w' = ex1
  ∧ editorCode <$> editorRef w' = Some (JStr "a")
  ∧ trace (handleUpdate ex1 (JBool false)) (world u1) =
      [SetViewingPatternData ex1; SetCode (JStr "a")].
Proof.
  split; [reflexivity|].
  destruct (handleUpdate_loads (world u1) _ ex1 (JBool false) eq_refl)
    as (_ & Hviewed & Hcode & Htrace & _).
  split; [exact Hviewed|]. split; [exact Hcode|]. exact Htrace.
Defined.

Lemma handleUpdate_unattached_ex1 :
  editorRef (unmounted u1) = None
  ∧ viewingPatternData (exec (handleUpdate ex1 (JBool true)) (unmounted u1)) = ex1
  ∧ trace (handleUpdate ex1 (JBool true)) (unmounted u1) = [SetViewingPatternData ex1].
Proof.
  split; [reflexivity|].
  destruct (handleUpdate_unattached (unmounted u1) ex1 (JBool true) eq_refl)
    as [_ Hexec].
  unfold trace. rewrite Hexec. split; reflexivity.
Defined.

Lemma resetEditor_idempotent_world :
  let once := exec resetEditor (world u1) in
  editorRef (world u1) = Some {| editorCode := JStr ""; replCps := Qmake 1 2 |}
  ∧ set_log (log once) (exec resetEditor once) = once.
Proof.
  split; [reflexivity|].
  destruct (resetEditor_idempotent (world u1) _ eq_refl) as [_ Hagain].
  exact Hagain.
Defined.
End ActionRuns.

(** ** What the events leave alone *)

Section FrameFacts.
Context {St : Type} `{!Collaborators St}.
Implicit Types (w : World St).

(** [afterEval] only adds to the log and writes the viewed document, the
    active pattern and the store. *)
Lemma afterEval_frame w C :
  let w' := exec (afterEval C) w in
  parentFrame w' = parentFrame w ∧ modulesLoading w' = modulesLoading w
  ∧ editorRef w' = editorRef w ∧ replState w' = replState w.
Proof.
  destruct (decide (get (viewingPatternData w) "collection" = userCollection)) as [Hus|Hex].
  - destruct (isValidID (get (<["code" := JStr C]> (viewingPatternData w)) "id"))
      eqn:Hvalid; unfold exec.
    + by rewrite (afterEval_update w C Hus Hvalid).
    + by rewrite (afterEval_fresh w C Hus Hvalid).
  - destruct (decide (JStr C = get (viewingPatternData w) "code")) as [Hsame|Hch];
      unfold exec.
    + by rewrite (afterEval_unchanged w C Hex Hsame).
    + by rewrite (afterEval_fork w C Hex Hch).
Qed.

(** One event: the window and the loaded modules stay, an editor is
    neither attached nor detached, and only [afterEval] writes the store and
    the active pattern, only [afterEval] and [handleUpdate] the viewed
    document. *)
Lemma dispatch_frame w ev :
  let w' := exec (dispatch ev) w in
  parentFrame w' = parentFrame w
  ∧ modulesLoading w' = modulesLoading w
  ∧ (editorRef w' = None ↔ editorRef w = None)
  ∧ match ev with
    | AfterEval _ => True
    | HandleUpdate _ _ =>
        userPatterns w' = userPatterns w ∧ activePattern w' = activePattern w
    | _ =>
        userPatterns w' = userPatterns w ∧ activePattern w' = activePattern w
        ∧ viewingPatternData w' = viewingPatternData w
    end.
Proof.
  destruct ev as [state|playing|code|_settings| | |patternData reset|]; simpl.
  - done.
  - unfold onToggle. by destruct (truthy (js_not playing)).
  - destruct (afterEval_frame w code) as (? & ? & Hed & _). by rewrite Hed.
  - destruct w as [pf ml [e|] rs v ap st l]; unfold settingsEffect; step; done.
  - destruct w as [pf ml [e|] rs v ap st l]; unfold handleTogglePlay; step; done.
  - destruct w as [pf ml [e|] rs v ap st l];
      unfold handleEvaluate, editor_evaluate; step; done.
  - destruct (editorRef w) as [e|] eqn:He.
    + unfold exec. rewrite (handleUpdate_attached w e patternData reset He). done.
    + destruct w as [pf ml ed rs v ap st l]; simpl in He; subst ed.
      unfold handleUpdate, editor_setCode. step. done.
  - done.
Qed.

(** Through any events the hook neither attaches nor detaches an editor:
    it is attached afterwards exactly when it was before (so an action that
    needs the editor keeps throwing until [init] has run, and never
    afterwards); the window and the loaded modules stay as they are. *)
Theorem editor_stays (evs : list event) w :
  let w' := dispatch_all evs w in
  (editorRef w' = None ↔ editorRef w = None)
  ∧ parentFrame w' = parentFrame w
  ∧ modulesLoading w' = modulesLoading w.
Proof.
  induction evs as [|ev evs IH] using rev_ind; [done|].
  cbv zeta in *. rewrite dispatch_all_snoc.
  destruct (dispatch_frame (dispatch_all evs w) ev) as (Hpf & Hml & Hed & _).
  destruct IH as (IHed & IHpf & IHml).
  rewrite Hpf, Hml, Hed. done.
Qed.

End FrameFacts.


(** ** handleShuffle *)

Section ShuffleFacts.
Context {St : Type} `{!Collaborators St}.
Implicit Types (w : World St) (s : Session St).

Lemma lift_run {A} (m : M (St:=St) A) s r w' t :
  m (session_world s) = (r, w') →
  log w' = log (session_world s) ++ t →
  lift m s = (r, mkSession w' (journal s ++ (Call <$> t))).
Proof. unfold lift. intros -> ->. by rewrite drop_app_length. Qed.

Lemma setActivePattern_run w id :
  setActivePattern id w =
    (Ret tt, set_log (log w ++ [SetActivePattern id]) (set_activePattern id w)).
Proof. reflexivity. Qed.

Lemma setViewingPatternData_run w data :
  setViewingPatternData data w =
    (Ret tt, set_log (log w ++ [SetViewingPatternData data]) (set_viewingPatternData data w)).
Proof. reflexivity. Qed.

Lemma editor_setCode_run w e code :
  editorRef w = Some e →
  editor_setCode code w =
    (Ret tt,
     set_log (log w ++ [SetCode code])
       (set_editorRef (Some {| editorCode := code; replCps := replCps e |}) w)).
Proof.
  destruct w as [pf ml ed rs v ap st l]; simpl. intros ->. reflexivity.
Qed.

Lemma handleShuffle_attached s e patternData :
  editorRef (session_world s) = Some e →
  let w := session_world s in
  let id := get patternData "id" in
  let code := get patternData "code" in
  handleShuffle patternData s =
    (Ret tt,
     mkSession
       (mkWorld (parentFrame w) (modulesLoading w)
          (Some {| editorCode := code; replCps := Qmake 1 2 |})
          (replState w) patternData id (userPatterns w)
          (log w ++ [SetActivePattern id; SetViewingPatternData patternData]
             ++ voicings w ++ resets ++ [SetCode code]))
       (journal s ++
          [Logger (loading patternData); Call (SetActivePattern id);
           Call (SetViewingPatternData patternData)]
          ++ (Call <$> voicings w ++ resets)
          ++ [Call (SetCode code); ReplEvaluate code])).
Proof.
  destruct s as [w j]. destruct w as [pf ml ed rs v ap st l]. simpl. intros ->.
  unfold handleShuffle, bindX, logger, note. cbv beta iota zeta.
  erewrite (lift_run (setActivePattern _));
    [|apply setActivePattern_run|simpl; reflexivity]. cbv beta iota.
  erewrite (lift_run (setViewingPatternData _));
    [|apply setViewingPatternData_run|simpl; reflexivity]. cbv beta iota.
  erewrite (lift_run resetEditor);
    [|apply (resetEditor_attached _ e); reflexivity|simpl; reflexivity]. cbv beta iota.
  erewrite (lift_run (editor_setCode _));
    [|apply editor_setCode_run; reflexivity|simpl; reflexivity]. cbv beta iota.
  unfold editor_repl_evaluate, note. simpl.
  unfold voicings. simpl. rewrite <- !app_assoc. simpl. reflexivity.
Qed.

Lemma handleShuffle_detached s patternData :
  editorRef (session_world s) = None →
  let w := session_world s in
  let id := get patternData "id" in
  let made :=
    [SetActivePattern id; SetViewingPatternData patternData] ++ voicings w
      ++ [ResetGlobalEffects; ClearCanvas; ClearHydra; ResetLoadedSounds] in
  handleShuffle patternData s =
    (Throw (TypeError "Cannot read properties of undefined"),
     mkSession
       (set_log (log w ++ made)
          (set_viewingPatternData patternData (set_activePattern id w)))
       (journal s ++ Logger (loading patternData) :: (Call <$> made))).
Proof.
  destruct s as [w j]. destruct w as [pf ml ed rs v ap st l]. simpl. intros ->.
  unfold handleShuffle, bindX, logger, note. cbv beta iota zeta.
  erewrite (lift_run (setActivePattern _));
    [|apply setActivePattern_run|simpl; reflexivity]. cbv beta iota.
  erewrite (lift_run (setViewingPatternData _));
    [|apply setViewingPatternData_run|simpl; reflexivity]. cbv beta iota.
  erewrite (lift_run resetEditor);
    [|apply resetEditor_unattached; reflexivity|simpl; reflexivity]. cbv beta iota.
  unfold voicings. simpl. rewrite <- !app_assoc. simpl. reflexivity.
Qed.

(** With an editor attached, [handleShuffle] makes the tune the active
    pattern and the viewed document, resets, and only then puts the code of
    the tune into the editor and evaluates that code; the store and the
    session state are left alone. *)
Theorem handleShuffle_loads s e patternData :
  editorRef (session_world s) = Some e →
  let w := session_world s in
  let after := (handleShuffle patternData s).2 in
  let w' := session_world after in
  (handleShuffle patternData s).1 = Ret tt
  ∧ activePattern w' = get patternData "id"
  ∧ viewingPatternData w' = patternData
  ∧ editorRef w' =
      Some {| editorCode := get patternData "code"; replCps := Qmake 1 2 |}
  ∧ userPatterns w' = userPatterns w ∧ replState w' = replState w
  ∧ journal after =
      journal s ++
        [Logger (loading patternData); Call (SetActivePattern (get patternData "id"));
         Call (SetViewingPatternData patternData)]
        ++ (Call <$> voicings w ++ resets)
        ++ [Call (SetCode (get patternData "code"));
            ReplEvaluate (get patternData "code")].
Proof.
  intros He. cbv zeta. by rewrite (handleShuffle_attached s e patternData He).
Qed.

(** Without an editor, [handleShuffle] throws in the middle of the reset:
    by then the tune is already the active pattern and the viewed document
    and four of the resets are done, but its code is neither put into an
    editor nor evaluated. *)
Theorem handleShuffle_unattached s patternData :
  editorRef (session_world s) = None →
  let w := session_world s in
  let after := (handleShuffle patternData s).2 in
  (handleShuffle patternData s).1 = Throw (TypeError "Cannot read properties of undefined")
  ∧ activePattern (session_world after) = get patternData "id"
  ∧ viewingPatternData (session_world after) = patternData
  ∧ drop (length (journal s)) (journal after) =
      [Logger (loading patternData); Call (SetActivePattern (get patternData "id"));
       Call (SetViewingPatternData patternData)]
      ++ (Call <$> voicings w)
      ++ [Call ResetGlobalEffects; Call ClearCanvas; Call ClearHydra;
          Call ResetLoadedSounds].
Proof.
  intros He. cbv zeta. rewrite (handleShuffle_detached s patternData He). simpl.
  rewrite drop_app_length. repeat split; try done.
  rewrite fmap_app. done.
Qed.

(** With an editor attached, shuffling to a tune leaves the hook in the
    state that marking the tune active and then [handleUpdate] with a reset
    leave it in; the two differ only in the calls they make. *)
Theorem handleShuffle_as_update s e patternData :
  editorRef (session_world s) = Some e →
  let w := session_world s in
  let viaUpdate :=
    exec (setActivePattern (get patternData "id") ;;
          handleUpdate patternData (JBool true)) w in
  set_log [] (session_world (handleShuffle patternData s).2) = set_log [] viaUpdate.
Proof.
  intros He. cbv zeta. rewrite (handleShuffle_attached s e patternData He). simpl.
  unfold exec, bind. rewrite setActivePattern_run.
  erewrite handleUpdate_attached by (simpl; exact He). done.
Qed.
End ShuffleFacts.

Section ShuffleRuns.
Import MemoryStore.

Lemma handleShuffle_loads_ex1 :
  let after := (handleShuffle ex1 (mkSession (world u1) [])).2 in
  editorRef (world u1) = Some {| editorCode := JStr ""; replCps := Qmake 1 2 |}
  ∧ activePattern (session_world after) = JStr "ex1"
  ∧ viewingPatternData (session_world after) = ex1
  ∧ editorCode <$> editorRef (session_world after) = Some (JStr "a").
Proof.
  split; [reflexivity|].
  destruct (handleShuffle_loads (mkSession (world u1) []) _ ex1 eq_refl)
    as (_ & Hactive & Hviewed & Heditor & _).
  cbv zeta. rewrite Hactive, Hviewed, Heditor. split; [|split]; reflexivity.
Defined.

Lemma handleShuffle_unattached_ex1 :
  let after := (handleShuffle ex1 (mkSession (unmounted u1) [])).2 in
  editorRef (unmounted u1) = None
  ∧ (handleShuffle ex1 (mkSession (unmounted u1) [])).1 =
      Throw (TypeError "Cannot read properties of undefined")
  ∧ activePattern (session_world after) = JStr "ex1"
  ∧ viewingPatternData (session_world after) = ex1.
Proof.
  split; [reflexivity|].
  destruct (handleShuffle_unattached (mkSession (unmounted u1) []) ex1 eq_refl)
    as (Hthrow & Hactive & Hviewed & _).
  cbv zeta. rewrite Hthrow, Hactive, Hviewed. split; [|split]; reflexivity.
Defined.

Lemma handleShuffle_as_update_ex1 :
  editorRef (world u1) = Some {| editorCode := JStr ""; replCps := Qmake 1 2 |}
  ∧ set_log [] (session_world (handleShuffle ex1 (mkSession (world u1) [])).2) =
      set_log [] (exec (setActivePattern (JStr "ex1") ;;
                        handleUpdate ex1 (JBool true)) (world u1)).
Proof.
  split; [reflexivity|].
  exact (handleShuffle_as_update (mkSession (world u1) []) _ ex1 eq_refl).
Defined.
End ShuffleRuns.

(** ** Who writes the documents *)

Section WriterFacts.
Context {St : Type} `{!Collaborators St}.
Implicit Types (w : World St) (s : Session St).

Lemma lift_world {A} (m : M (St:=St) A) s :
  session_world (lift m s).2 = exec m (session_world s).
Proof. unfold lift, exec. by destruct (m (session_world s)). Qed.

Lemma occur_all_snoc (os : list occurrence) (o : occurrence) s :
  occur_all (os ++ [o]) s = (occur o (occur_all os s)).2.
Proof. unfold occur_all. by rewrite foldl_app. Qed.

(** One occurrence writes only what it is listed for. *)
Lemma occur_keeps (o : occurrence) s :
  let w := session_world s in
  let w' := session_world (occur o s).2 in
  (writes_store o = false → userPatterns w' = userPatterns w)
  ∧ (writes_active o = false → activePattern w' = activePattern w)
  ∧ (writes_viewed o = false → viewingPatternData w' = viewingPatternData w).
Proof.
  destruct o as [ev|patternData]; cbv zeta.
  - unfold occur. rewrite lift_world.
    pose proof (dispatch_frame (session_world s) ev) as (_ & _ & _ & Hdoc).
    destruct ev; cbv beta iota zeta in Hdoc; repeat split; intros Hw;
      try (simpl in Hw; discriminate Hw); destruct_and?; done.
  - simpl. split; [intros _|done].
    destruct (editorRef (session_world s)) as [e|] eqn:He.
    + by rewrite (handleShuffle_attached s e patternData He).
    + by rewrite (handleShuffle_detached s patternData He).
Qed.

(** The pattern store is written by [afterEval] alone, the active pattern
    by [afterEval] and [handleShuffle] alone, and the viewed document by
    [afterEval], [handleUpdate] and [handleShuffle] alone: through any
    callbacks and actions of the hook among which these are missing, the
    store, the active pattern, or the viewed document is afterwards what it
    was. *)
Theorem documents_stay (os : list occurrence) s :
  let w := session_world s in
  let w' := session_world (occur_all os s) in
  (Forall (fun o => writes_store o = false) os → userPatterns w' = userPatterns w)
  ∧ (Forall (fun o => writes_active o = false) os → activePattern w' = activePattern w)
  ∧ (Forall (fun o => writes_viewed o = false) os →
       viewingPatternData w' = viewingPatternData w).
Proof.
  induction os as [|o os IH] using rev_ind; [done|].
  cbv zeta in *. rewrite occur_all_snoc.
  destruct IH as (IHst & IHap & IHv).
  destruct (occur_keeps o (occur_all os s)) as (Hst & Hap & Hv).
  split; [|split]; intros [Hos Ho%Forall_inv]%Forall_app.
  - rewrite Hst by done. by apply IHst.
  - rewrite Hap by done. by apply IHap.
  - rewrite Hv by done. by apply IHv.
Qed.
End WriterFacts.

Section WriterRuns.
Import MemoryStore.

(** A session without an evaluation, but with an update and a shuffle:
    the store is as it was, while the shuffle has marked its tune. *)
Lemma documents_stay_world :
  let os := [Event (OnUpdateState edited); Event HandleShare;
             Event (HandleUpdate ex1 (JBool true)); Shuffle ex1;
             Event (SettingsChange observed)] in
  let s' := occur_all os (mkSession (world u1) []) in
  Forall (fun o => writes_store o = false) os
  ∧ userPatterns (session_world s') = empty
  ∧ activePattern (session_world s') = JStr "ex1".
Proof.
  assert (Hos : Forall (fun o : occurrence => writes_store o = false)
            [Event (OnUpdateState edited); Event HandleShare;
             Event (HandleUpdate ex1 (JBool true)); Shuffle ex1;
             Event (SettingsChange observed)])
    by (repeat constructor).
  split; [exact Hos|].
  destruct (documents_stay
              [Event (OnUpdateState edited); Event HandleShare;
               Event (HandleUpdate ex1 (JBool true)); Shuffle ex1;
               Event (SettingsChange observed)]
              (mkSession (world u1) [])) as (Hstore & _ & _).
  split; [exact (Hstore Hos)|]. vm_compute. reflexivity.
Defined.
End WriterRuns.

(** ** More of the toolbar *)

Section ToolbarMore.
Import Toolbar.
Implicit Types (context : ReplContext) (settings : Settings).

(** Unfold the view, rewrite with the truth values at hand and evaluate. *)
Ltac paint :=
  cbv [HeaderOn isEmbedded play_pulses
       Header cx cond when js_and js_or js_not
       header_className h1_className logo_className brand buttonRow
       update_className update_label update_title
       play_className play_title play_content];
  simpl;
  repeat match goal with
         | H : truthy _ = _ |- _ => rewrite !H; simpl
         end.

(** The play/stop control, when the button row is shown: it shows the
    loading text exactly while the session is pending, otherwise the stop
    icon when started and the play icon when not, with the same word as its
    title for a label; the labels of both controls are left out exactly when
    [isEmbedded] holds (in a window, with the [embedded] property or inside
    another window; never without a window), where the controls also get
    the narrower padding. *)
Theorem Header_controls window context embedded settings :
  let embedding := truthy (isEmbedded window embedded) in
  (embedding =
     match window with
     | None => false
     | Some framed => truthy embedded || framed
     end)
  ∧ match buttonRow (HeaderOn window context embedded settings) with
    | Some row =>
        play_title row = (if truthy (started context) then "stop" else "play")
        ∧ play_content row =
            (if truthy (pending context) then Loading
             else IconLabel
                    (if truthy (started context) then StopCircleIcon else PlayCircleIcon)
                    (if embedding then None else Some (play_title row)))
        ∧ update_label row = (if embedding then None else Some "update")
        ∧ has_class "px-2" (play_className row) = embedding
        ∧ has_class "p-2" (play_className row) = negb embedding
        ∧ has_class "px-2" (update_className row) = embedding
        ∧ has_class "p-2" (update_className row) = negb embedding
    | None => truthy (isZen settings) || truthy (isButtonRowHidden settings) = true
    end.
Proof.
  split.
  { destruct window as [framed|]; [|done].
    unfold isEmbedded, js_and, js_or. simpl.
    by destruct (truthy embedded) eqn:Hembedded; simpl; rewrite ?Hembedded. }
  destruct (truthy (isZen settings)) eqn:Hzen;
    destruct (truthy (isButtonRowHidden settings)) eqn:Hhidden;
    destruct window as [framed|];
    paint; try reflexivity.
  - destruct (truthy (started context)) eqn:Hstarted;
      destruct (truthy (pending context)) eqn:Hpending;
      destruct (truthy (isCSSAnimationDisabled settings)) eqn:Hdisabled;
      destruct (truthy (isDirty context)) eqn:Hdirty;
      destruct (truthy (activeCode context)) eqn:Hcode;
      destruct (truthy embedded) eqn:Hembedded;
      destruct framed;
      paint; done.
  - destruct (truthy (started context)) eqn:Hstarted;
      destruct (truthy (pending context)) eqn:Hpending;
      destruct (truthy (isCSSAnimationDisabled settings)) eqn:Hdisabled;
      destruct (truthy (isDirty context)) eqn:Hdirty;
      destruct (truthy (activeCode context)) eqn:Hcode;
      paint; done.
Qed.

(** The logo never spins while the play/stop control pulses, and with CSS
    animation disabled neither is animated.  With it enabled, the logo spins
    exactly while the session is started, and the control pulses exactly
    while it is not started and the button row is rendered: one of the two
    is animated when the row is rendered, and without the row (zen mode, or
    a hidden row) only the logo is, while started. *)
Theorem Header_one_animation window context embedded settings :
  let view := HeaderOn window context embedded settings in
  let enabled := negb (truthy (isCSSAnimationDisabled settings)) in
  let shown :=
    negb (truthy (isZen settings)) && negb (truthy (isButtonRowHidden settings)) in
  spins (logo_className view) = truthy (started context) && enabled
  ∧ play_pulses view = shown && negb (truthy (started context)) && enabled
  ∧ spins (logo_className view) && play_pulses view = false
  ∧ spins (logo_className view) || play_pulses view =
      enabled && (truthy (started context) || shown).
Proof.
  destruct (truthy (isZen settings)) eqn:Hzen;
    destruct (truthy (isButtonRowHidden settings)) eqn:Hhidden;
    destruct (truthy (started context)) eqn:Hstarted;
    destruct (truthy (isCSSAnimationDisabled settings)) eqn:Hdisabled;
    destruct window as [[|]|];
    try destruct (truthy embedded) eqn:Hembedded;
    paint; done.
Qed.

(** Zen mode: the name of the application and the button row are shown
    only outside of it (the row also only when it is not hidden), the header
    is fixed in zen mode and sticky outside of it, and it gets the
    highlighted background only when neither in zen mode nor embedded, where
    embedded is [isEmbedded]: never without a window, and in a window with
    the [embedded] property or inside another window. *)
Theorem Header_zen window context embedded settings :
  let view := HeaderOn window context embedded settings in
  let zen := truthy (isZen settings) in
  brand view = (if zen then None else Some "birder")
  ∧ (if buttonRow view is Some _ then true else false) =
      negb zen && negb (truthy (isButtonRowHidden settings))
  ∧ has_class "fixed" (header_className view) = zen
  ∧ has_class "sticky" (header_className view) = negb zen
  ∧ has_class "bg-lineHighlight" (header_className view) =
      negb zen && negb (truthy (isEmbedded window embedded))
  ∧ truthy (isEmbedded window embedded) =
      match window with
      | None => false
      | Some framed => truthy embedded || framed
      end.
Proof.
  destruct (truthy (isZen settings)) eqn:Hzen;
    destruct (truthy (isButtonRowHidden settings)) eqn:Hhidden;
    destruct window as [[|]|];
    try destruct (truthy embedded) eqn:Hembedded;
    paint; done.
Qed.

(** The component uses [embedded] and the window only through
    [isEmbedded]. *)
Lemma Header_isEmbedded context settings embedded1 framed1 embedded2 framed2 :
  js_or embedded1 (JBool framed1) = js_or embedded2 (JBool framed2) →
  Header context embedded1 framed1 settings = Header context embedded2 framed2 settings.
Proof. unfold Header. cbv zeta. by intros ->. Qed.

(** The view depends on the session state only through the truth values of
    [started], [pending], [isDirty] and [activeCode]: two states that agree
    on these are rendered alike, whatever their code, and whatever their
    [error]. *)
Theorem Header_truth_values (context1 context2 : ReplContext) embedded framed settings :
  truthy (started context1) = truthy (started context2) →
  truthy (pending context1) = truthy (pending context2) →
  truthy (isDirty context1) = truthy (isDirty context2) →
  truthy (activeCode context1) = truthy (activeCode context2) →
  Header context1 embedded framed settings = Header context2 embedded framed settings.
Proof.
  intros Hstarted Hpending Hdirty Hcode.
  destruct (truthy (started context2)) eqn:Hstarted2;
    destruct (truthy (pending context2)) eqn:Hpending2;
    destruct (truthy (isDirty context2)) eqn:Hdirty2;
    destruct (truthy (activeCode context2)) eqn:Hcode2;
    destruct (truthy (isZen settings)) eqn:Hzen;
    destruct (truthy (isButtonRowHidden settings)) eqn:Hhidden;
    destruct (truthy (isCSSAnimationDisabled settings)) eqn:Hdisabled;
    paint; reflexivity.
Qed.

Lemma Header_truth_values_playing :
  let other := {| started := JNum 1; pending := JNull; isDirty := JStr "";
                  activeCode := JStr "b"; error := JStr "boom" |} in
  truthy (started playing) = truthy (started other)
  ∧ Header playing (JBool false) false plain = Header other (JBool false) false plain.
Proof.
  split; [reflexivity|].
  apply (Header_truth_values playing
           {| started := JNum 1; pending := JNull; isDirty := JStr "";
              activeCode := JStr "b"; error := JStr "boom" |});
    reflexivity.
Defined.
End ToolbarMore.

(** ** Clicks on the header *)

Section ClickFacts.
Import Toolbar Clicks.

(** A click on the logo does exactly one thing: embedded, it opens the
    page outside of the embedding and leaves zen mode alone; not embedded,
    it sets zen mode to the negation of what it is and opens nothing.  A
    click elsewhere on the heading does something only when embedded. *)
Theorem logo_click embedded framed settings :
  onClick Logo embedded framed settings =
    (if truthy embedded || framed
     then [OpenWithoutEmbed]
     else [SetIsZen (JBool (negb (truthy (isZen settings))))])
  ∧ onClick Heading embedded framed settings =
      (if truthy embedded || framed then [OpenWithoutEmbed] else []).
Proof.
  unfold onClick, logo_onClick, h1_onClick, js_or, js_not.
  destruct (truthy embedded) eqn:Hembedded; simpl; rewrite ?Hembedded; simpl;
    [done|by destruct framed].
Qed.

End ClickFacts.

(** ** Playing an example as it was loaded *)

Section LoadedExampleFacts.
Context {St : Type} `{!Collaborators St}.
Implicit Types (w : World St) (C : string).

Lemma handleUpdate_viewed w patternData reset :
  let w' := exec (handleUpdate patternData reset) w in
  viewingPatternData w' = patternData ∧ userPatterns w' = userPatterns w.
Proof.
  destruct (editorRef w) as [e|] eqn:He.
  - unfold exec. by rewrite (handleUpdate_attached w e patternData reset He).
  - destruct w as [pf ml ed rs v ap st l]; simpl in He; subst ed.
    unfold handleUpdate, editor_setCode. step. done.
Qed.

(** An example that is evaluated as it was loaded is not forked: after
    [handleUpdate] with an example, the evaluation of the code of that
    example calls neither the store nor the viewed-document pointer, leaves
    the store as it was, and makes the id of the example the active
    pattern.  This holds with or without an editor attached. *)
Theorem loaded_example_not_forked w patternData reset C :
  get patternData "collection" ≠ userCollection →
  get patternData "code" = JStr C →
  let loaded := exec (handleUpdate patternData reset) w in
  let w' := exec (afterEval C) loaded in
  List.filter is_document_effect (trace (afterEval C) loaded) = []
  ∧ userPatterns w' = userPatterns w
  ∧ viewingPatternData w' = patternData
  ∧ activePattern w' = get patternData "id".
Proof.
  intros Hex Hcode loaded w'.
  destruct (handleUpdate_viewed w patternData reset) as [Hviewed Hstore].
  fold loaded in Hviewed, Hstore.
  assert (Hex' : get (viewingPatternData loaded) "collection" ≠ userCollection)
    by by rewrite Hviewed.
  assert (Hsame : JStr C = get (viewingPatternData loaded) "code")
    by by rewrite Hviewed.
  pose proof (afterEval_unchanged loaded C Hex' Hsame) as Hrun. simpl in Hrun.
  rewrite (trace_of_run _ _ _ _ _ _ _ _ _ _ _ Hrun).
  subst w'. unfold exec at 1 2 3. rewrite Hrun. simpl.
  rewrite get_with_code by done. rewrite Hviewed, Hstore.
  split; [|done]. rewrite List.filter_app. unfold publish, broadcast.
  by destruct (parentFrame loaded).
Qed.
End LoadedExampleFacts.

Section LoadedExampleRuns.
Import MemoryStore.

Lemma loaded_example_not_forked_ex1 :
  let loaded := exec (handleUpdate ex1 (JBool true)) (world u1) in
  get ex1 "collection" ≠ userCollection
  ∧ get ex1 "code" = JStr "a"
  ∧ userPatterns (exec (afterEval "a") loaded) = empty
  ∧ activePattern (exec (afterEval "a") loaded) = JStr "ex1".
Proof.
  assert (Hex : get ex1 "collection" ≠ userCollection) by (vm_compute; discriminate).
  assert (Hcode : get ex1 "code" = JStr "a") by (vm_compute; reflexivity).
  split; [exact Hex|]. split; [exact Hcode|].
  destruct (loaded_example_not_forked (world u1) ex1 (JBool true) "a" Hex Hcode)
    as (_ & Hstore & _ & Hactive).
  split; [exact Hstore|]. rewrite Hactive. vm_compute. reflexivity.
Defined.
End LoadedExampleRuns.
